(** * review-bot: the diff-to-structured-result pipeline

    A shallow embedding of the parts of the repository that normalise git
    change records ([core/git_manager.py]), filter them
    ([core/review_manager.py]), interpret a model's free-form answer
    ([providers/base.py]) and project the result to JSON
    ([core/review_manager.py]), over the data model of [models/types.py].

    Python values are modelled as follows.
    - [str] is a sequence of Unicode code points: [list N].
    - [int] is unbounded: [Z].
    - [Optional[T]] is [option T]; a list is a [list]; a [dict] whose
      iteration order matters is an association list updated in place.
    - an exception is an explicit outcome; [try]/[except] is a match on it. *)

From Stdlib Require Import List ZArith NArith Lia Bool String Ascii.
From Stdlib Require Import DecimalString Floats.SpecFloat.
From Stdlib.Strings Require Byte.
From Stdlib Require DecimalPos DecimalZ.
Import ListNotations.



(* ===================================================================== *)
(** * Python strings *)
(* ===================================================================== *)

Module PyStr.

Definition codepoint := N.
Definition str := list codepoint.

(** An ASCII literal of the source, code point by code point. *)
Fixpoint of_ascii (s : string) : str :=
  match s with
  | EmptyString => []
  | String a s' => N_of_ascii a :: of_ascii s'
  end.

Definition LF : codepoint := 10%N.

Fixpoint eqb (s t : str) : bool :=
  match s, t with
  | [], [] => true
  | a :: s', b :: t' => N.eqb a b && eqb s' t'
  | _, _ => false
  end.

(** Truth value of a string: [if s:]. *)
Definition truthy (s : str) : bool :=
  match s with [] => false | _ :: _ => true end.

(** [s.startswith(p)]. *)
Fixpoint startswith (p s : str) : bool :=
  match p, s with
  | [], _ => true
  | a :: p', b :: s' => N.eqb a b && startswith p' s'
  | _ :: _, [] => false
  end.

(** [needle in hay]. *)
Fixpoint contains (needle hay : str) : bool :=
  match hay with
  | [] => startswith needle []
  | _ :: hay' => startswith needle hay || contains needle hay'
  end.

(** [s.split(sep)] for a one-character separator: never an empty list. *)
Fixpoint split (sep : codepoint) (s : str) : list str :=
  match s with
  | [] => [[]]
  | c :: s' =>
      if N.eqb c sep then [] :: split sep s'
      else match split sep s' with
           | [] => [[c]]
           | w :: ws => (c :: w) :: ws
           end
  end.

(** [sep.join(parts)]. *)
Fixpoint join (sep : str) (parts : list str) : str :=
  match parts with
  | [] => []
  | [p] => p
  | p :: ps => p ++ sep ++ join sep ps
  end.

(** [c.isspace()], which is also what [\s] matches in a [str] pattern. *)
Definition isspace (c : codepoint) : bool :=
  ((9 <=? c) && (c <=? 13) || (28 <=? c) && (c <=? 32)
   || (c =? 0x85) || (c =? 0xA0) || (c =? 0x1680)
   || (0x2000 <=? c) && (c <=? 0x200A)
   || (c =? 0x2028) || (c =? 0x2029) || (c =? 0x202F)
   || (c =? 0x205F) || (c =? 0x3000))%N.

Fixpoint lstrip (s : str) : str :=
  match s with
  | [] => []
  | c :: s' => if isspace c then lstrip s' else s
  end.

Definition rstrip (s : str) : str := rev (lstrip (rev s)).

(** [s.strip()]. *)
Definition strip (s : str) : str := rstrip (lstrip s).

(** [s.lower()], one code point at a time.  ASCII capitals are folded; the
    two code points outside ASCII whose lower case holds an ASCII letter
    (U+0130, which becomes [i] followed by U+0307, and the Kelvin sign
    U+212A) are mapped as Python maps them.  Every other code point outside
    ASCII lowers to code points outside ASCII and is left in place: the
    source only ever searches a lowered text for ASCII keywords, and that
    search cannot tell the difference. *)
Definition lower_cp (c : codepoint) : str :=
  (if (65 <=? c) && (c <=? 90) then [c + 32]
   else if c =? 0x130 then [0x69; 0x307]
   else if c =? 0x212A then [0x6B]
   else [c])%N.

Definition lower (s : str) : str := flat_map lower_cp s.

(** [s[:n]] for a literal [n >= 0]. *)
Definition prefix (n : nat) (s : str) : str := firstn n s.

(** [str(n)] for an [int]. *)
Definition of_int (n : Z) : str :=
  of_ascii (NilZero.string_of_int (Z.to_int n)).

End PyStr.

Import PyStr.

Notation "'py' s" := (of_ascii s%string) (at level 9, s at level 0, only parsing).


(* ===================================================================== *)
(** * The data model: [models/types.py] *)
(* ===================================================================== *)

(** [datetime], as [datetime.now()] produces it: a naive timestamp. *)
Module Datetime.

Record t := mk
  { year : Z; month : Z; day : Z;
    hour : Z; minute : Z; second : Z; microsecond : Z }.

(** The ranges the constructor of [datetime] enforces (the day is further
    limited by the month; that plays no role here). *)
Definition valid (d : t) : Prop :=
  (1 <= year d <= 9999 /\ 1 <= month d <= 12 /\ 1 <= day d <= 31 /\
   0 <= hour d <= 23 /\ 0 <= minute d <= 59 /\ 0 <= second d <= 59 /\
   0 <= microsecond d <= 999999)%Z.

Definition digit (n : Z) : codepoint := (48 + Z.to_N (n mod 10))%N.

(** [%02d], [%04d] and [%06d] on a number that fits. *)
Definition pad2 (n : Z) : str := [digit (n / 10); digit n].
Definition pad4 (n : Z) : str :=
  [digit (n / 1000); digit (n / 100); digit (n / 10); digit n].
Definition pad6 (n : Z) : str :=
  [digit (n / 100000); digit (n / 10000); digit (n / 1000);
   digit (n / 100); digit (n / 10); digit n].

(** [d.isoformat()]: [YYYY-MM-DDTHH:MM:SS], followed by [.ffffff] when the
    microsecond is not zero. *)
Definition isoformat (d : t) : str :=
  pad4 (year d) ++ py "-" ++ pad2 (month d) ++ py "-" ++ pad2 (day d)
  ++ py "T" ++ pad2 (hour d) ++ py ":" ++ pad2 (minute d) ++ py ":"
  ++ pad2 (second d)
  ++ (if (microsecond d =? 0)%Z then [] else py "." ++ pad6 (microsecond d)).

End Datetime.

(** [float]: an IEEE 754 value (sign, mantissa and exponent, the infinities,
    the zeros and NaN). *)
Definition float := spec_float.

Inductive Priority := HIGH | MEDIUM | LOW.

Inductive Severity := CRITICAL | MAJOR | MINOR.

Inductive FileStatus := ADDED | MODIFIED | DELETED | RENAMED.

(** The [.value] of the three [str, Enum] classes. *)
Definition Priority_value (p : Priority) : str :=
  match p with
  | HIGH => py "high" | MEDIUM => py "medium" | LOW => py "low"
  end.

Definition Severity_value (s : Severity) : str :=
  match s with
  | CRITICAL => py "critical" | MAJOR => py "major" | MINOR => py "minor"
  end.

Definition FileStatus_value (s : FileStatus) : str :=
  match s with
  | ADDED => py "added" | MODIFIED => py "modified"
  | DELETED => py "deleted" | RENAMED => py "renamed"
  end.

Module TokenUsage.
Record t := mk
  { input_tokens : Z; output_tokens : Z; total_tokens : Z }.
End TokenUsage.

Module Issue.
Record t := mk
  { severity : Severity;
    type : str;
    file : option str;
    line : option Z;
    description : str;
    suggestion : option str;
    code_example : option str }.

(** [Issue(severity=..., type=..., description=...)]: the other fields
    take their defaults. *)
Definition make (sev : Severity) (ty descr : str) : t :=
  mk sev ty None None descr None None.

(** [issue.description += extra]. *)
Definition add_description (i : t) (extra : str) : t :=
  mk (severity i) (type i) (file i) (line i) (description i ++ extra)
     (suggestion i) (code_example i).
End Issue.

Module Suggestion.
Record t := mk
  { id : str;
    title : str;
    description : str;
    files : list str;
    priority : Priority;
    completed : bool;
    example : option str }.

(** [Suggestion(id=..., title=..., description=..., priority=...)]. *)
Definition make (i ti descr : str) (p : Priority) : t :=
  mk i ti descr [] p false None.
End Suggestion.

Module ReviewResult.
Record t := mk
  { provider : str;
    model : str;
    timestamp : Datetime.t;
    summary : str;
    strengths : list str;
    issues : list Issue.t;
    suggestions : list Suggestion.t;
    raw_response : option str;
    tokens : option TokenUsage.t;
    estimated_cost : option float }.

(** [ReviewResult(provider=..., model=..., raw_response=...)]; [now] is
    what the default factory [datetime.now] returns at that moment. *)
Definition make (now : Datetime.t) (prov mdl : str) (raw : option str) : t :=
  mk prov mdl now [] [] [] [] raw None None.

(** Attribute assignments. *)
Definition set_summary (r : t) (v : str) : t :=
  mk (provider r) (model r) (timestamp r) v (strengths r) (issues r)
     (suggestions r) (raw_response r) (tokens r) (estimated_cost r).
Definition set_strengths (r : t) (v : list str) : t :=
  mk (provider r) (model r) (timestamp r) (summary r) v (issues r)
     (suggestions r) (raw_response r) (tokens r) (estimated_cost r).
Definition set_issues (r : t) (v : list Issue.t) : t :=
  mk (provider r) (model r) (timestamp r) (summary r) (strengths r) v
     (suggestions r) (raw_response r) (tokens r) (estimated_cost r).
Definition set_suggestions (r : t) (v : list Suggestion.t) : t :=
  mk (provider r) (model r) (timestamp r) (summary r) (strengths r)
     (issues r) v (raw_response r) (tokens r) (estimated_cost r).
End ReviewResult.

Module FileChange.
Record t := mk
  { path : str;
    status : FileStatus;
    additions : Z;
    deletions : Z;
    patch : option str }.
End FileChange.

Module GitStats.
Record t := mk
  { files_changed : Z; insertions : Z; deletions : Z }.
End GitStats.

Module GitDiff.
Record t := mk
  { files : list FileChange.t;
    stats : GitStats.t;
    commit_message : option str;
    branch : option str }.
End GitDiff.

(** The fields of [ReviewConfig] the file filter reads.
    [max_files_per_review] is declared [Field(default=50, gt=0)]. *)
Module ReviewConfig.
Record t := mk
  { exclude_patterns : list str;
    include_patterns : list str;
    max_files_per_review : Z }.
End ReviewConfig.

(* ===================================================================== *)
(** * Exceptions *)
(* ===================================================================== *)

(** The outcome of a block that may raise: its value, or the text of the
    exception ([str(e)]). *)
Inductive outcome (A : Type) : Type :=
| Ok (a : A)
| Raise (e : str).

Arguments Ok {A} a.
Arguments Raise {A} e.

Definition bind {A B : Type} (c : outcome A) (k : A -> outcome B) : outcome B :=
  match c with
  | Ok a => k a
  | Raise e => Raise e
  end.

Notation "x <- c ;; k" := (bind c (fun x => k))
  (at level 61, c at next level, right associativity).

(* ===================================================================== *)
(** * DiffNormalizer: [core/git_manager.py] *)
(* ===================================================================== *)

Module GitManager.

(** ** The change records GitPython hands over *)

(** [bytes.decode('utf-8')]: strict UTF-8, [None] for what Python rejects
    with [UnicodeDecodeError] (stray or missing continuation bytes,
    overlong forms, surrogates, values above U+10FFFF). *)
Definition continuation (b : N) : bool := ((0x80 <=? b) && (b <=? 0xBF))%N.

Definition between (lo b hi : N) : bool := ((lo <=? b) && (b <=? hi))%N.

Fixpoint utf8_decode (bs : list N) : option str :=
  match bs with
  | [] => Some []
  | b0 :: r0 =>
      if (b0 <? 0x80)%N then option_map (cons b0) (utf8_decode r0)
      else if between 0xC2 b0 0xDF then
        match r0 with
        | b1 :: r1 =>
            if continuation b1
            then option_map (cons ((b0 - 0xC0) * 64 + (b1 - 0x80))%N)
                            (utf8_decode r1)
            else None
        | _ => None
        end
      else if between 0xE0 b0 0xEF then
        match r0 with
        | b1 :: b2 :: r2 =>
            if between (if (b0 =? 0xE0)%N then 0xA0 else 0x80) b1
                       (if (b0 =? 0xED)%N then 0x9F else 0xBF)
               && continuation b2
            then option_map
                   (cons ((b0 - 0xE0) * 4096 + (b1 - 0x80) * 64
                          + (b2 - 0x80))%N)
                   (utf8_decode r2)
            else None
        | _ => None
        end
      else if between 0xF0 b0 0xF4 then
        match r0 with
        | b1 :: b2 :: b3 :: r3 =>
            if between (if (b0 =? 0xF0)%N then 0x90 else 0x80) b1
                       (if (b0 =? 0xF4)%N then 0x8F else 0xBF)
               && continuation b2 && continuation b3
            then option_map
                   (cons ((b0 - 0xF0) * 262144 + (b1 - 0x80) * 4096
                          + (b2 - 0x80) * 64 + (b3 - 0x80))%N)
                   (utf8_decode r3)
            else None
        | _ => None
        end
      else None
  end.

(** Reading an attribute of a record either gives its value or raises. *)
Inductive attr (A : Type) : Type :=
| Value (a : A)
| Raises (e : str).

Arguments Value {A} a.
Arguments Raises {A} e.

Definition read {A : Type} (a : attr A) : outcome A :=
  match a with
  | Value v => Ok v
  | Raises e => Raise e
  end.

(** What [diff.diff] may hold. *)
Inductive blob : Type :=
| NoDiff                          (* no such attribute, or reading it raises *)
| DiffNone                        (* None *)
| DiffBytes (b : list Byte.byte)  (* bytes *)
| DiffStr (s : str).              (* str *)

Module RawDiff.
Record t := mk
  { a_path : attr (option str);
    b_path : attr (option str);
    new_file : attr bool;
    deleted_file : attr bool;
    renamed_file : attr bool;
    diff : blob }.
End RawDiff.
Import RawDiff.

(** Truth value of an [Optional[str]]. *)
Definition opt_truthy (o : option str) : bool :=
  match o with
  | Some s => truthy s
  | None => false
  end.

(** ** [_process_single_diff] *)

(** The inner [try]: [patch] stays [None] unless [diff.diff] is a non-empty
    [bytes] that decodes.  A [str] has no [decode], an absent or raising
    attribute fails [hasattr] or raises, and both land in [except: pass]. *)
Definition get_patch (b : blob) : option str :=
  match b with
  | DiffBytes ((_ :: _) as bs) => utf8_decode (map Byte.to_N bs)
  | DiffBytes [] => None
  | NoDiff => None
  | DiffNone => None
  | DiffStr _ => None
  end.

(** One turn of the counting loop over [patch.split('\n')]. *)
Definition count_line (acc : Z * Z) (line : str) : Z * Z :=
  let '(additions, deletions) := acc in
  if startswith (py "+") line && negb (startswith (py "+++") line)
  then ((additions + 1)%Z, deletions)
  else if startswith (py "-") line && negb (startswith (py "---") line)
  then (additions, (deletions + 1)%Z)
  else (additions, deletions).

Definition count_changes (patch : option str) : Z * Z :=
  match patch with
  | Some p =>
      if truthy p then fold_left count_line (split LF p) (0%Z, 0%Z)
      else (0%Z, 0%Z)
  | None => (0%Z, 0%Z)
  end.

(** The body of the outer [try]. *)
Definition process_single_diff_body (d : RawDiff.t)
  : outcome (option FileChange.t) :=
  b <- read (b_path d) ;;
  file_path <- (if opt_truthy b then Ok b else read (a_path d)) ;;
  if negb (opt_truthy file_path) then Ok None
  else
    status <- (isnew <- read (new_file d) ;;
               if isnew then Ok ADDED
               else
                 isdel <- read (deleted_file d) ;;
                 if isdel then Ok DELETED
                 else
                   isren <- read (renamed_file d) ;;
                   if isren then Ok RENAMED else Ok MODIFIED) ;;
    let patch := get_patch (diff d) in
    let '(additions, deletions) := count_changes patch in
    Ok (Some (FileChange.mk (match file_path with Some p => p | None => [] end)
                            status additions deletions patch)).

(** [except Exception: return None]. *)
Definition _process_single_diff (d : RawDiff.t) : option FileChange.t :=
  match process_single_diff_body d with
  | Ok r => r
  | Raise _ => None
  end.

(** ** [_process_diffs] *)

(** The loop state: [files], [total_insertions], [total_deletions]. *)
Definition process_step (st : list FileChange.t * Z * Z) (d : RawDiff.t)
  : list FileChange.t * Z * Z :=
  let '(files, total_insertions, total_deletions) := st in
  match _process_single_diff d with
  | Some file_change =>
      (files ++ [file_change],
       (total_insertions + FileChange.additions file_change)%Z,
       (total_deletions + FileChange.deletions file_change)%Z)
  | None => st
  end.

Definition _process_diffs (diffs : list RawDiff.t)
           (commit_message : option str) (branch : str) : GitDiff.t :=
  let '(files, total_insertions, total_deletions) :=
    fold_left process_step diffs ([], 0%Z, 0%Z) in
  GitDiff.mk files
    (GitStats.mk (Z.of_nat (List.length files)) total_insertions total_deletions)
    commit_message (Some branch).

(** ** [format_diff_for_review] *)

(** One turn of the loop: the heading, the stat line (which ends in a line
    feed of its own) and, for a file that has a patch, the fenced patch. *)
Definition format_file (formatted_lines : list str) (file : FileChange.t)
  : list str :=
  let formatted_lines :=
    formatted_lines
    ++ [py "## " ++ FileChange.path file ++ py " ("
        ++ FileStatus_value (FileChange.status file) ++ py ")"] in
  let formatted_lines :=
    formatted_lines
    ++ [py "**+" ++ of_int (FileChange.additions file) ++ py " -"
        ++ of_int (FileChange.deletions file) ++ py "**" ++ [LF]] in
  if opt_truthy (FileChange.patch file)
  then formatted_lines
       ++ [py "```diff";
           match FileChange.patch file with Some p => p | None => [] end;
           py "```" ++ [LF]]
  else formatted_lines.

Definition format_diff_for_review (git_diff : GitDiff.t) : str :=
  join [LF] (fold_left format_file (GitDiff.files git_diff) []).

(** ** The repository behind the manager *)

Module Commit.
Record t := mk
  { message : str;
    (** [commit.diff(commit.parents[0])], when there is a parent *)
    diff_parent : option (list RawDiff.t);
    (** [commit.diff(None)] *)
    diff_None : list RawDiff.t }.
End Commit.

Module Repo.
Record t := mk
  { (** [repo.index.diff("HEAD")]: the staged changes *)
    index_diff_HEAD : outcome (list RawDiff.t);
    (** [repo.index.diff(None)]: the unstaged changes *)
    index_diff_None : outcome (list RawDiff.t);
    (** [repo.active_branch.name] *)
    active_branch : outcome str;
    (** [repo.commit(commit_hash)] *)
    commit : str -> outcome Commit.t }.
End Repo.

Section WithRepo.

Variable repo : Repo.t.

Definition get_current_branch : str :=
  match Repo.active_branch repo with
  | Ok name => name
  | Raise _ => py "unknown"
  end.

Definition _get_commit_diff (commit_hash : str) : outcome GitDiff.t :=
  match
    (commit <- Repo.commit repo commit_hash ;;
     let diffs := match Commit.diff_parent commit with
                  | Some ds => ds
                  | None => Commit.diff_None commit
                  end in
     Ok (_process_diffs diffs (Some (strip (Commit.message commit)))
                        get_current_branch))
  with
  | Ok r => Ok r
  | Raise e =>
      Raise (py "Invalid commit hash: " ++ commit_hash ++ py ": " ++ e)
  end.

Definition _get_staged_diff : outcome GitDiff.t :=
  diffs <- Repo.index_diff_HEAD repo ;;
  Ok (_process_diffs diffs None get_current_branch).

Definition _get_working_diff : outcome GitDiff.t :=
  staged_diffs <- Repo.index_diff_HEAD repo ;;
  unstaged_diffs <- Repo.index_diff_None repo ;;
  let all_diffs := staged_diffs ++ unstaged_diffs in
  Ok (_process_diffs all_diffs None get_current_branch).

(** [get_diff(staged, commit_hash)]; every exception leaves as a
    [ValueError] whose text is returned here. *)
Definition get_diff (staged : bool) (commit_hash : option str)
  : outcome GitDiff.t :=
  match
    (if opt_truthy commit_hash
     then _get_commit_diff (match commit_hash with
                            | Some h => h | None => [] end)
     else if staged then _get_staged_diff
     else _get_working_diff)
  with
  | Ok r => Ok r
  | Raise e => Raise (py "Failed to get git diff: " ++ e)
  end.

End WithRepo.

End GitManager.

(* ===================================================================== *)
(** * FileFilter and ResultPresenter: [core/review_manager.py] *)
(* ===================================================================== *)

(** What [json.dumps] accepts: the values a serialised result is built of. *)
#[local] Unset Elimination Schemes.
Inductive json : Type :=
| JNull
| JBool (b : bool)
| JInt (n : Z)
| JFloat (x : float)
| JStr (s : str)
| JList (l : list json)
| JDict (items : list (str * json)).
#[local] Set Elimination Schemes.

Module ReviewManager.

(** [l[:n]]: a negative [n] counts from the end. *)
Definition slice_to {A : Type} (n : Z) (l : list A) : list A :=
  if (0 <=? n)%Z then firstn (Z.to_nat n) l
  else firstn (Z.to_nat (Z.of_nat (List.length l) + n)) l.

Section WithFnmatch.

(** [fnmatch.fnmatch(name, pattern)] of the standard library. *)
Variable fnmatch : str -> str -> bool.

(** One turn of the loop over [git_diff.files]. *)
Definition filter_step (config : ReviewConfig.t)
           (filtered_files : list FileChange.t) (file : FileChange.t)
  : list FileChange.t :=
  let excluded :=
    existsb (fun pattern => fnmatch (FileChange.path file) pattern)
            (ReviewConfig.exclude_patterns config) in
  if excluded then filtered_files
  else
    let included :=
      existsb (fun pattern => fnmatch (FileChange.path file) pattern)
              (ReviewConfig.include_patterns config) in
    if included then filtered_files ++ [file] else filtered_files.

Definition limit_warning (config : ReviewConfig.t) : str :=
  py "[yellow]Warning: Limited to "
  ++ of_int (ReviewConfig.max_files_per_review config)
  ++ py " files[/yellow]".

(** [_filter_files]: the filtered diff and what was printed on the
    console. *)
Definition _filter_files (git_diff : GitDiff.t) (config : ReviewConfig.t)
  : GitDiff.t * list str :=
  let filtered_files :=
    fold_left (filter_step config) (GitDiff.files git_diff) [] in
  let '(filtered_files, printed) :=
    if (ReviewConfig.max_files_per_review config
        <? Z.of_nat (List.length filtered_files))%Z
    then (slice_to (ReviewConfig.max_files_per_review config) filtered_files,
          [limit_warning config])
    else (filtered_files, []) in
  (GitDiff.mk filtered_files (GitDiff.stats git_diff)
              (GitDiff.commit_message git_diff) (GitDiff.branch git_diff),
   printed).

Definition is_empty {A : Type} (l : list A) : bool :=
  match l with [] => true | _ :: _ => false end.

(** The stretch of [run_review] from the diff to the filtered diff:
    both emptiness checks raise [ValueError]. *)
Definition run_review_filter (git_diff : GitDiff.t) (config : ReviewConfig.t)
  : outcome (GitDiff.t * list str) :=
  if is_empty (GitDiff.files git_diff)
  then Raise (py "No changes found to review")
  else
    let '(filtered_diff, printed) := _filter_files git_diff config in
    if is_empty (GitDiff.files filtered_diff)
    then Raise (py "No files to review after filtering")
    else Ok (filtered_diff, printed).

(** The same stretch of [run_review] with the text it prepares for the
    provider: [code_diff] is rendered before the files are filtered. *)
Definition run_review_prepare (git_diff : GitDiff.t) (config : ReviewConfig.t)
  : outcome (str * GitDiff.t * list str) :=
  if is_empty (GitDiff.files git_diff)
  then Raise (py "No changes found to review")
  else
    let code_diff := GitManager.format_diff_for_review git_diff in
    let '(filtered_diff, printed) := _filter_files git_diff config in
    if is_empty (GitDiff.files filtered_diff)
    then Raise (py "No files to review after filtering")
    else Ok (code_diff, filtered_diff, printed).

End WithFnmatch.

(** ** [_serialize_result] *)

Definition json_opt_str (o : option str) : json :=
  match o with Some s => JStr s | None => JNull end.

Definition json_opt_int (o : option Z) : json :=
  match o with Some n => JInt n | None => JNull end.

Definition json_opt_float (o : option float) : json :=
  match o with Some x => JFloat x | None => JNull end.

Definition serialize_issue (issue : Issue.t) : json :=
  JDict
    [ (py "severity", JStr (Severity_value (Issue.severity issue)));
      (py "type", JStr (Issue.type issue));
      (py "file", json_opt_str (Issue.file issue));
      (py "line", json_opt_int (Issue.line issue));
      (py "description", JStr (Issue.description issue));
      (py "suggestion", json_opt_str (Issue.suggestion issue));
      (py "code_example", json_opt_str (Issue.code_example issue)) ].

Definition serialize_suggestion (suggestion : Suggestion.t) : json :=
  JDict
    [ (py "id", JStr (Suggestion.id suggestion));
      (py "title", JStr (Suggestion.title suggestion));
      (py "description", JStr (Suggestion.description suggestion));
      (py "files", JList (map JStr (Suggestion.files suggestion)));
      (py "priority", JStr (Priority_value (Suggestion.priority suggestion)));
      (py "completed", JBool (Suggestion.completed suggestion));
      (py "example", json_opt_str (Suggestion.example suggestion)) ].

Definition serialize_tokens (tokens : option TokenUsage.t) : json :=
  match tokens with
  | Some t =>
      JDict [ (py "input", JInt (TokenUsage.input_tokens t));
              (py "output", JInt (TokenUsage.output_tokens t));
              (py "total", JInt (TokenUsage.total_tokens t)) ]
  | None => JNull
  end.

Definition _serialize_result (result : ReviewResult.t) : json :=
  JDict
    [ (py "provider", JStr (ReviewResult.provider result));
      (py "model", JStr (ReviewResult.model result));
      (py "timestamp",
       JStr (Datetime.isoformat (ReviewResult.timestamp result)));
      (py "summary", JStr (ReviewResult.summary result));
      (py "strengths", JList (map JStr (ReviewResult.strengths result)));
      (py "issues", JList (map serialize_issue (ReviewResult.issues result)));
      (py "suggestions",
       JList (map serialize_suggestion (ReviewResult.suggestions result)));
      (py "tokens", serialize_tokens (ReviewResult.tokens result));
      (py "estimated_cost",
       json_opt_float (ReviewResult.estimated_cost result)) ].

End ReviewManager.

(* ===================================================================== *)
(** * ResponseInterpreter: [providers/base.py] *)
(* ===================================================================== *)

Module BaseAIProvider.

(** ** Literals of the source file

    The three severity literals of [_parse_issues] and the bullet of
    [_extract_list_items], code point by code point as the file holds
    them.  Each severity literal is four code points long. *)
Definition critical_literal : str := [0xF0; 0x178; 0x201D; 0xB4]%N.
Definition major_literal : str := [0xF0; 0x178; 0x178; 0xA1]%N.
Definition minor_literal : str := [0xF0; 0x178; 0x178; 0xA2]%N.

(** The class [[-*...]] of the list patterns: hyphen, asterisk and the three
    code points U+00E2, U+20AC, U+00A2. *)
Definition bullet_class : list codepoint := [0x2D; 0x2A; 0xE2; 0x20AC; 0xA2]%N.

(** The class of the first substitution of [_clean_issue_text]: the code
    points of the three severity literals. *)
Definition literal_class : list codepoint :=
  critical_literal ++ major_literal ++ minor_literal.

Definition in_class (cls : list codepoint) (c : codepoint) : bool :=
  existsb (N.eqb c) cls.

Definition HASH : codepoint := 0x23%N.
Definition STAR : codepoint := 0x2A%N.
Definition DOT : codepoint := 0x2E%N.
Definition COLON : codepoint := 0x3A%N.

(** ** Ordered dictionaries

    A [dict] keeps its keys in the order of their first insertion; storing
    under a key that is present replaces the value where it stands. *)
Definition dict := list (str * str).

Fixpoint dict_set (d : dict) (k v : str) : dict :=
  match d with
  | [] => [(k, v)]
  | (k', v') :: d' =>
      if eqb k' k then (k, v) :: d' else (k', v') :: dict_set d' k v
  end.

Fixpoint dict_get (d : dict) (k : str) : option str :=
  match d with
  | [] => None
  | (k', v') :: d' => if eqb k' k then Some v' else dict_get d' k
  end.

Definition nonempty {A : Type} (l : list A) : bool :=
  match l with [] => false | _ :: _ => true end.

(** The longest prefix whose code points satisfy [p], and the rest. *)
Fixpoint span (p : codepoint -> bool) (s : str) : str * str :=
  match s with
  | [] => ([], [])
  | c :: s' =>
      if p c then let '(a, b) := span p s' in (c :: a, b) else ([], s)
  end.

(** ** [_split_into_sections] *)

(** [re.match(r'^#{1,3}\s+(.+)$', line.strip())], returning group 1.
    The stripped line ends in no white space, so once one to three hashes
    and the white space after them are consumed the rest is the title; four
    hashes or more leave a hash where white space is required, whatever the
    count tried.  The dot of [(.+)] matches everything but a line feed. *)
Definition header_match (line : str) : option str :=
  let s := strip line in
  let '(hashes, rest) := span (N.eqb HASH) s in
  if (1 <=? List.length hashes)%nat && (List.length hashes <=? 3)%nat then
    match rest with
    | c :: _ =>
        if isspace c then
          let title := lstrip rest in
          if truthy title && negb (existsb (N.eqb LF) title)
          then Some title else None
        else None
    | [] => None
    end
  else None.

(** The loop state: [sections], [current_section], [current_content]. *)
Definition flush (sections : dict) (current_section : str)
           (current_content : list str) : dict :=
  if nonempty current_content
  then dict_set sections current_section (join [LF] current_content)
  else sections.

Definition split_step (st : dict * str * list str) (line : str)
  : dict * str * list str :=
  let '(sections, current_section, current_content) := st in
  match header_match line with
  | Some title => (flush sections current_section current_content, title, [])
  | None => (sections, current_section, current_content ++ [line])
  end.

Definition _split_into_sections (response : str) : dict :=
  let '(sections, current_section, current_content) :=
    fold_left split_step (split LF response) ([], py "general", []) in
  flush sections current_section current_content.

(** ** [_clean_issue_text] *)

(** One code point against a lower-case ASCII letter of a pattern compiled
    with [re.IGNORECASE]: the engine lowers the code point (simple case
    mapping, which sends U+0130 to [i] and the Kelvin sign to [k]) and
    compares; for [i] it also accepts the dotless U+0131. *)
Definition simple_lower (c : codepoint) : codepoint :=
  (if (65 <=? c) && (c <=? 90) then c + 32
   else if c =? 0x130 then 0x69
   else if c =? 0x212A then 0x6B
   else c)%N.

Definition ci_eq (p c : codepoint) : bool :=
  N.eqb (simple_lower c) p || (N.eqb p 0x69 && N.eqb c 0x131).

Fixpoint ci_startswith (p s : str) : bool :=
  match p, s with
  | [], _ => true
  | a :: p', b :: s' => ci_eq a b && ci_startswith p' s'
  | _ :: _, [] => false
  end.

(** [(Critical|Major|Minor)] at the head of [s]: the length matched. *)
Definition keyword_at (s : str) : option nat :=
  if ci_startswith (py "critical") s then Some 8%nat
  else if ci_startswith (py "major") s then Some 5%nat
  else if ci_startswith (py "minor") s then Some 5%nat
  else None.

(** [\*?\*?:?\s*] at the head of [s]: the length matched (all greedy). *)
Definition optional (c : codepoint) (s : str) : nat * str :=
  match s with
  | c' :: s' => if N.eqb c' c then (1%nat, s') else (0%nat, s)
  | [] => (0%nat, s)
  end.

Definition keyword_tail (s : str) : nat :=
  let '(n1, s1) := optional STAR s in
  let '(n2, s2) := optional STAR s1 in
  let '(n3, s3) := optional COLON s2 in
  (n1 + n2 + n3 + List.length (fst (span isspace s3)))%nat.

(** The pattern after [k] leading asterisks have been consumed. *)
Definition keyword_after (k : nat) (s : str) : option nat :=
  match keyword_at (skipn k s) with
  | Some n => Some (k + n + keyword_tail (skipn (k + n) s))%nat
  | None => None
  end.

Definition or_else {A : Type} (a b : option A) : option A :=
  match a with Some _ => a | None => b end.

(** [\*?\*?(Critical|Major|Minor)\*?\*?:?\s*] at the head of [s]: the length
    of the match.  Each [\*?] first tries to take an asterisk and gives it
    back when the rest fails. *)
Definition severity_match (s : str) : option nat :=
  match s with
  | c1 :: c2 :: _ =>
      if N.eqb c1 STAR then
        if N.eqb c2 STAR
        then or_else (keyword_after 2 s)
                     (or_else (keyword_after 1 s) (keyword_after 0 s))
        else or_else (keyword_after 1 s) (keyword_after 0 s)
      else keyword_after 0 s
  | [c1] =>
      if N.eqb c1 STAR
      then or_else (keyword_after 1 s) (keyword_after 0 s)
      else keyword_after 0 s
  | [] => keyword_after 0 s
  end.

(** [re.sub(pattern, '', text)] for that pattern: leftmost matches, none
    overlapping; [skip] counts the code points of the current match still
    to be dropped. *)
Fixpoint remove_matches (skip : nat) (s : str) : str :=
  match s with
  | [] => []
  | c :: s' =>
      match skip with
      | S k => remove_matches k s'
      | O =>
          match severity_match s with
          | Some (S k) => remove_matches k s'
          | _ => c :: remove_matches 0 s'
          end
      end
  end.

Definition _clean_issue_text (text : str) : str :=
  let text := filter (fun c => negb (in_class literal_class c)) text in
  let text := remove_matches 0 text in
  strip text.

(** ** [_parse_issues] *)

(** The severity a stripped line announces, if any: the [if]/[elif] chain. *)
Definition severity_of_line (line : str) : option Severity :=
  if contains critical_literal line || contains (py "critical") (lower line)
  then Some CRITICAL
  else if contains major_literal line || contains (py "major") (lower line)
  then Some MAJOR
  else if contains minor_literal line || contains (py "minor") (lower line)
  then Some MINOR
  else None.

Definition close (issues : list Issue.t) (current_issue : option Issue.t)
  : list Issue.t :=
  match current_issue with
  | Some i => issues ++ [i]
  | None => issues
  end.

(** The loop state: [issues], [current_issue]. *)
Definition issue_step (st : list Issue.t * option Issue.t) (line : str)
  : list Issue.t * option Issue.t :=
  let '(issues, current_issue) := st in
  let line := strip line in
  match severity_of_line line with
  | Some sev =>
      (close issues current_issue,
       Some (Issue.make sev (py "general") (_clean_issue_text line)))
  | None =>
      match current_issue with
      | Some i =>
          if truthy line
          then (issues, Some (Issue.add_description i (py " " ++ line)))
          else (issues, current_issue)
      | None => (issues, current_issue)
      end
  end.

Definition _parse_issues (content : str) : list Issue.t :=
  let '(issues, current_issue) :=
    fold_left issue_step (split LF content) ([], None) in
  close issues current_issue.

(** ** [_parse_suggestions]: the part after the list extraction *)

Definition high_words : list str :=
  [py "urgent"; py "critical"; py "important"].
Definition low_words : list str :=
  [py "minor"; py "optional"; py "consider"].

Definition suggestion_priority (item : str) : Priority :=
  if existsb (fun word => contains word (lower item)) high_words then HIGH
  else if existsb (fun word => contains word (lower item)) low_words then LOW
  else MEDIUM.

Definition suggestion_title (item : str) : str :=
  if contains [DOT] item then hd [] (split DOT item) else prefix 50 item.

(** One turn of the loop over [enumerate(items)]. *)
Definition suggestion_step (suggestions : list Suggestion.t)
           (entry : nat * str) : list Suggestion.t :=
  let '(i, item) := entry in
  suggestions
  ++ [Suggestion.make (py "suggestion-" ++ of_int (Z.of_nat i + 1))
                      (suggestion_title item) item
                      (suggestion_priority item)].

Definition enumerate {A : Type} (l : list A) : list (nat * A) :=
  combine (seq 0 (List.length l)) l.

Definition suggestions_of_items (items : list str) : list Suggestion.t :=
  fold_left suggestion_step (enumerate items) [].

Section WithDecimalDigits.

(** [\d] in a [str] pattern matches the decimal digits of every script
    (category Nd of the interpreter's Unicode database).  The ASCII range
    is fixed; the table beyond it is a parameter. *)
Variable decimal_beyond_ascii : codepoint -> bool.

Definition isdecimal (c : codepoint) : bool :=
  if (c <? 128)%N then (48 <=? c)%N && (c <=? 57)%N
  else decimal_beyond_ascii c.

(** ** [_extract_list_items] *)

(** [^[-*...]\s+] at the head of [line]: the text after the match. *)
Definition bullet_match (line : str) : option str :=
  match line with
  | c :: ((w :: _) as rest) =>
      if in_class bullet_class c && isspace w
      then Some (lstrip rest) else None
  | _ => None
  end.

(** [^\d+\.\s+] at the head of [line]: the text after the match. *)
Definition ordinal_match (line : str) : option str :=
  let '(digits, rest) := span isdecimal line in
  match digits, rest with
  | _ :: _, d :: ((w :: _) as rest') =>
      if N.eqb d DOT && isspace w then Some (lstrip rest') else None
  | _, _ => None
  end.

Definition is_some {A : Type} (o : option A) : bool :=
  match o with Some _ => true | None => false end.

(** [re.sub(pattern, '', s)] for a pattern anchored at the start. *)
Definition remove_prefix (m : str -> option str) (s : str) : str :=
  match m s with Some rest => rest | None => s end.

Definition extract_step (items : list str) (line : str) : list str :=
  let line := strip line in
  if is_some (bullet_match line) || is_some (ordinal_match line) then
    let item := remove_prefix bullet_match line in
    let item := remove_prefix ordinal_match item in
    if truthy item then items ++ [item] else items
  else items.

Definition _extract_list_items (content : str) : list str :=
  fold_left extract_step (split LF content) [].

Definition _parse_suggestions (content : str) : list Suggestion.t :=
  suggestions_of_items (_extract_list_items content).

End WithDecimalDigits.

(** ** [parse_review_response] *)

(** The four helpers are reached through [self]: a provider may override
    them, and an override may raise. *)
Module Methods.
Record t := mk
  { split_into_sections : str -> outcome dict;
    extract_list_items : str -> outcome (list str);
    parse_issues : str -> outcome (list Issue.t);
    parse_suggestions : str -> outcome (list Suggestion.t) }.
End Methods.

(** The helpers of the base class: none of them raises. *)
Definition base (decimal_beyond_ascii : codepoint -> bool) : Methods.t :=
  Methods.mk
    (fun response => Ok (_split_into_sections response))
    (fun content => Ok (_extract_list_items decimal_beyond_ascii content))
    (fun content => Ok (_parse_issues content))
    (fun content => Ok (_parse_suggestions decimal_beyond_ascii content)).

Section WithMethods.

Variable self : Methods.t.

(** The loop over [sections.items()].  [result] is updated in place, so
    when a helper raises, the fields set so far stay set: the loop returns
    the result as it stands and the exception, if any. *)
Fixpoint parse_sections (result : ReviewResult.t) (items : dict)
  : ReviewResult.t * option str :=
  match items with
  | [] => (result, None)
  | (section_title, content) :: rest =>
      let title_lower := lower section_title in
      if contains (py "summary") title_lower then
        parse_sections (ReviewResult.set_summary result (strip content)) rest
      else if contains (py "strength") title_lower then
        match Methods.extract_list_items self content with
        | Ok v => parse_sections (ReviewResult.set_strengths result v) rest
        | Raise e => (result, Some e)
        end
      else if contains (py "issue") title_lower
              || contains (py "problem") title_lower then
        match Methods.parse_issues self content with
        | Ok v => parse_sections (ReviewResult.set_issues result v) rest
        | Raise e => (result, Some e)
        end
      else if contains (py "suggestion") title_lower
              || contains (py "improvement") title_lower then
        match Methods.parse_suggestions self content with
        | Ok v => parse_sections (ReviewResult.set_suggestions result v) rest
        | Raise e => (result, Some e)
        end
      else parse_sections result rest
  end.

(** The [try] block. *)
Definition try_parse (result : ReviewResult.t) (response : str)
  : ReviewResult.t * option str :=
  match Methods.split_into_sections self response with
  | Ok sections => parse_sections result sections
  | Raise e => (result, Some e)
  end.

(** [parse_review_response]; [now] is the clock reading that stamps the
    result. *)
Definition parse_review_response (now : Datetime.t)
           (response provider model : str) : ReviewResult.t :=
  let result := ReviewResult.make now provider model (Some response) in
  match try_parse result response with
  | (result, None) => result
  | (result, Some e) =>
      let result :=
        ReviewResult.set_summary result (py "Parsing error: " ++ e) in
      let result := ReviewResult.set_issues result [] in
      ReviewResult.set_suggestions result []
  end.

End WithMethods.

End BaseAIProvider.

(* ===================================================================== *)
(** * Provider factory: [providers/__init__.py] *)
(* ===================================================================== *)

(** [Provider] of [models/types.py]. *)
Inductive Provider := CLAUDE | CHATGPT | GEMINI.

Definition Provider_value (p : Provider) : str :=
  match p with
  | CLAUDE => py "claude" | CHATGPT => py "chatgpt" | GEMINI => py "gemini"
  end.

(** [ProviderConfig] of [models/types.py]. *)
Module ProviderConfig.
Record t := mk
  { api_key : str;
    model : option str;
    max_tokens : Z;
    temperature : float }.
End ProviderConfig.

Module Providers.

(** [Provider(value)]: the member with that value; [None] stands for the
    [ValueError] of the enumeration. *)
Definition Provider_of_value (value : str) : option Provider :=
  if eqb value (py "claude") then Some CLAUDE
  else if eqb value (py "chatgpt") then Some CHATGPT
  else if eqb value (py "gemini") then Some GEMINI
  else None.

(** [DEFAULT_MODELS]. *)
Definition DEFAULT_MODELS (p : Provider) : str :=
  match p with
  | CLAUDE => py "claude-3-sonnet-20240229"
  | CHATGPT => py "gpt-4"
  | GEMINI => py "gemini-pro"
  end.

Section WithClientLibraries.

(** The client libraries the provider classes build on: the state they
    keep, their client objects, and the three calls the constructors make
    with the API key.  A call returns or raises, and leaves a state behind
    either way. *)
Variables world client : Type.
Variable AsyncAnthropic : str -> world -> outcome client * world.
Variable AsyncOpenAI : str -> world -> outcome client * world.
Variable genai_configure : str -> world -> outcome unit * world.

(** An object of one of the three provider classes, with the attributes
    its [__init__] sets: [config], [client] (not for Gemini) and
    [default_model]. *)
Inductive AIProvider :=
| ClaudeProvider (config : ProviderConfig.t) (client_ : client)
                 (default_model : str)
| OpenAIProvider (config : ProviderConfig.t) (client_ : client)
                 (default_model : str)
| GeminiProvider (config : ProviderConfig.t) (default_model : str).

(** The [name] property of the three classes. *)
Definition name (self : AIProvider) : str :=
  match self with
  | ClaudeProvider _ _ _ => py "claude"
  | OpenAIProvider _ _ _ => py "chatgpt"
  | GeminiProvider _ _ => py "gemini"
  end.

Definition config (self : AIProvider) : ProviderConfig.t :=
  match self with
  | ClaudeProvider config _ _ => config
  | OpenAIProvider config _ _ => config
  | GeminiProvider config _ => config
  end.

Definition default_model (self : AIProvider) : str :=
  match self with
  | ClaudeProvider _ _ default_model => default_model
  | OpenAIProvider _ _ default_model => default_model
  | GeminiProvider _ default_model => default_model
  end.

(** The three [__init__] methods: the base class stores the config, then
    the client library is called with the key; what that call raises
    leaves the constructor as it is. *)
Definition ClaudeProvider__init__ (config : ProviderConfig.t) (w : world)
  : outcome AIProvider * world :=
  match AsyncAnthropic (ProviderConfig.api_key config) w with
  | (Ok client_, w') =>
      (Ok (ClaudeProvider config client_ (py "claude-3-sonnet-20240229")), w')
  | (Raise e, w') => (Raise e, w')
  end.

Definition OpenAIProvider__init__ (config : ProviderConfig.t) (w : world)
  : outcome AIProvider * world :=
  match AsyncOpenAI (ProviderConfig.api_key config) w with
  | (Ok client_, w') => (Ok (OpenAIProvider config client_ (py "gpt-4")), w')
  | (Raise e, w') => (Raise e, w')
  end.

Definition GeminiProvider__init__ (config : ProviderConfig.t) (w : world)
  : outcome AIProvider * world :=
  match genai_configure (ProviderConfig.api_key config) w with
  | (Ok tt, w') => (Ok (GeminiProvider config (py "gemini-pro")), w')
  | (Raise e, w') => (Raise e, w')
  end.

(** The [providers] table of [create_provider]. *)
Definition providers (p : Provider)
  : ProviderConfig.t -> world -> outcome AIProvider * world :=
  match p with
  | CLAUDE => ClaudeProvider__init__
  | CHATGPT => OpenAIProvider__init__
  | GEMINI => GeminiProvider__init__
  end.

(** [create_provider]: only the enumeration lookup sits in the [try]; the
    class is instantiated outside it. *)
Definition create_provider (provider_name : str) (config : ProviderConfig.t)
           (w : world) : outcome AIProvider * world :=
  match Provider_of_value (lower provider_name) with
  | None => (Raise (py "Unknown provider: " ++ provider_name), w)
  | Some provider_enum =>
      let provider_class := providers provider_enum in
      provider_class config w
  end.

End WithClientLibraries.

Arguments ClaudeProvider {client} config client_ default_model.
Arguments OpenAIProvider {client} config client_ default_model.
Arguments GeminiProvider {client} config default_model.
Arguments name {client} self.
Arguments config {client} self.
Arguments default_model {client} self.
Arguments create_provider {world client}
  AsyncAnthropic AsyncOpenAI genai_configure provider_name config w.

End Providers.

(* ===================================================================== *)
(** * Vocabulary of the properties *)
(* ===================================================================== *)

(** Sum of an integer attribute over a list. *)
Definition sumZ {A : Type} (f : A -> Z) (l : list A) : Z :=
  fold_right (fun x acc => (f x + acc)%Z) 0%Z l.

(** The aggregate invariant of a diff: the stats are those of its files. *)
Definition stats_consistent (d : GitDiff.t) : Prop :=
  GitStats.files_changed (GitDiff.stats d)
  = Z.of_nat (List.length (GitDiff.files d))
  /\ GitStats.insertions (GitDiff.stats d)
     = sumZ FileChange.additions (GitDiff.files d)
  /\ GitStats.deletions (GitDiff.stats d)
     = sumZ FileChange.deletions (GitDiff.files d).

(** The records that survive [_process_single_diff], in order. *)
Definition produced (diffs : list GitManager.RawDiff.t) : list FileChange.t :=
  flat_map (fun d => match GitManager._process_single_diff d with
                     | Some f => [f]
                     | None => []
                     end) diffs.

(** A record without a usable path, whatever else it holds. *)
Definition no_path (d : GitManager.RawDiff.t) : Prop :=
  exists b a,
    GitManager.RawDiff.b_path d = GitManager.Value b /\
    GitManager.opt_truthy b = false /\
    GitManager.RawDiff.a_path d = GitManager.Value a /\
    GitManager.opt_truthy a = false.

(** A record on which the body of [_process_single_diff] raises. *)
Definition raises (d : GitManager.RawDiff.t) : Prop :=
  exists e, GitManager.process_single_diff_body d = Raise e.

(** How often a path occurs in a file list. *)
Definition count_path (p : str) (files : list FileChange.t) : nat :=
  List.length (filter (fun f => eqb (FileChange.path f) p) files).

(** The files [_filter_files] lets through: no exclude pattern matches the
    path and some include pattern does. *)
Definition excluded_by (fnmatch : str -> str -> bool) (config : ReviewConfig.t)
           (f : FileChange.t) : Prop :=
  exists pattern, In pattern (ReviewConfig.exclude_patterns config)
                  /\ fnmatch (FileChange.path f) pattern = true.

Definition included_by (fnmatch : str -> str -> bool) (config : ReviewConfig.t)
           (f : FileChange.t) : Prop :=
  exists pattern, In pattern (ReviewConfig.include_patterns config)
                  /\ fnmatch (FileChange.path f) pattern = true.

Definition passes (fnmatch : str -> str -> bool) (config : ReviewConfig.t)
           (f : FileChange.t) : bool :=
  negb (existsb (fun pattern => fnmatch (FileChange.path f) pattern)
                (ReviewConfig.exclude_patterns config))
  && existsb (fun pattern => fnmatch (FileChange.path f) pattern)
             (ReviewConfig.include_patterns config).

(** ** Sample data *)

(** [fnmatch] on patterns free of wildcard characters: such a pattern matches
    its own text and nothing else. *)
Definition literal_match (name pattern : str) : bool := eqb name pattern.

(** A modified file at [path] with the given raw patch. *)
Definition modified (path : string) (patch : string) : GitManager.RawDiff.t :=
  GitManager.RawDiff.mk
    (GitManager.Value (Some (py path))) (GitManager.Value (Some (py path)))
    (GitManager.Value false) (GitManager.Value false) (GitManager.Value false)
    (GitManager.DiffBytes (list_byte_of_string patch)).

Definition NL : string := String (ascii_of_nat 10) EmptyString.

Definition raw_a : GitManager.RawDiff.t :=
  modified "a.py" ("--- a/a.py" ++ NL ++ "+++ b/a.py" ++ NL ++ "+x" ++ NL
                   ++ "-y" ++ NL ++ "+z").

Definition raw_b : GitManager.RawDiff.t :=
  modified "b.log" ("+line").

Definition raw_a_unstaged : GitManager.RawDiff.t :=
  modified "a.py" ("-z").

(** A record exposing neither path. *)
Definition raw_pathless : GitManager.RawDiff.t :=
  GitManager.RawDiff.mk
    (GitManager.Value None) (GitManager.Value None)
    (GitManager.Value false) (GitManager.Value false) (GitManager.Value false)
    (GitManager.DiffBytes (list_byte_of_string "+lost")).

(** A record whose [new_file] flag cannot be read. *)
Definition raw_unreadable : GitManager.RawDiff.t :=
  GitManager.RawDiff.mk
    (GitManager.Value (Some (py "c.py"))) (GitManager.Value (Some (py "c.py")))
    (GitManager.Raises (py "boom")) (GitManager.Value false)
    (GitManager.Value false)
    (GitManager.DiffBytes (list_byte_of_string "+lost")).

Definition sample_repo : GitManager.Repo.t :=
  GitManager.Repo.mk (Ok [raw_a; raw_b]) (Ok [raw_a_unstaged])
                     (Ok (py "main")) (fun _ => Raise (py "bad revision")).

Definition sample_diff : GitDiff.t :=
  GitManager._process_diffs [raw_a; raw_b] None (py "main").

Definition sample_config : ReviewConfig.t :=
  ReviewConfig.mk [py "b.log"] [py "a.py"; py "b.log"] 50.

Definition tight_config : ReviewConfig.t :=
  ReviewConfig.mk [] [py "a.py"; py "b.log"] 1.

Definition sample_now : Datetime.t := Datetime.mk 2024 5 17 9 30 0 250000.

(** Two results that differ in [raw_response] alone. *)
Definition sample_result (raw : option str) : ReviewResult.t :=
  ReviewResult.mk (py "claude") (py "sonnet") sample_now (py "Looks fine.")
    [py "Clear names"]
    [Issue.mk MAJOR (py "general") (Some (py "a.py")) (Some 12%Z)
              (py "Unchecked index") None None]
    [Suggestion.make (py "suggestion-1") (py "Add a bound check")
                     (py "Add a bound check. It is cheap.") MEDIUM]
    raw (Some (TokenUsage.mk 100 20 120)) None.

Definition audited : ReviewResult.t := sample_result (Some (py "## Summary")).
Definition unaudited : ReviewResult.t := sample_result None.

(** The member of a JSON object under a key: what [json.loads(text)[key]]
    reads back ([None]: no such member). *)
Fixpoint assoc (key : str) (items : list (str * json)) : option json :=
  match items with
  | [] => None
  | (k, v) :: rest => if eqb k key then Some v else assoc key rest
  end.

Definition member (key : str) (j : json) : option json :=
  match j with
  | JDict items => assoc key items
  | _ => None
  end.

(** The number a run of ASCII decimal digits denotes ([None]: some code
    point is no digit). *)
Fixpoint digits_value (acc : Z) (text : str) : option Z :=
  match text with
  | [] => Some acc
  | c :: rest =>
      if ((48 <=? c) && (c <=? 57))%N
      then digits_value (10 * acc + Z.of_N (c - 48))%Z rest
      else None
  end.

(** [text] is [n] written with exactly [width] decimal digits. *)
Definition numeral (width : nat) (n : Z) (text : str) : Prop :=
  List.length text = width /\ digits_value 0 text = Some n.

(** ISO 8601, extended format, of a naive timestamp:
    [YYYY-MM-DDTHH:MM:SS], with a fraction of six digits exactly when the
    microsecond is not zero. *)
Definition iso8601 (d : Datetime.t) (text : str) : Prop :=
  exists Y M D h m s fraction,
    text = Y ++ py "-" ++ M ++ py "-" ++ D ++ py "T"
           ++ h ++ py ":" ++ m ++ py ":" ++ s ++ fraction
    /\ numeral 4 (Datetime.year d) Y
    /\ numeral 2 (Datetime.month d) M
    /\ numeral 2 (Datetime.day d) D
    /\ numeral 2 (Datetime.hour d) h
    /\ numeral 2 (Datetime.minute d) m
    /\ numeral 2 (Datetime.second d) s
    /\ ((Datetime.microsecond d = 0%Z /\ fraction = [])
        \/ (Datetime.microsecond d <> 0%Z
            /\ exists f, fraction = py "." ++ f
                         /\ numeral 6 (Datetime.microsecond d) f)).

(** The fields [parse_review_response] fixes when it creates the result and
    never assigns again. *)
Definition same_origin (r r' : ReviewResult.t) : Prop :=
  ReviewResult.provider r' = ReviewResult.provider r
  /\ ReviewResult.model r' = ReviewResult.model r
  /\ ReviewResult.timestamp r' = ReviewResult.timestamp r
  /\ ReviewResult.raw_response r' = ReviewResult.raw_response r.

(** A provider whose issue parser is overridden and raises. *)
Definition failing_provider : BaseAIProvider.Methods.t :=
  BaseAIProvider.Methods.mk
    (fun response => Ok (BaseAIProvider._split_into_sections response))
    (fun content => Ok (BaseAIProvider._extract_list_items (fun _ => false) content))
    (fun _ => Raise (py "boom"))
    (fun content => Ok (BaseAIProvider._parse_suggestions (fun _ => false) content)).

Definition failing_response : str :=
  py "## Strengths" ++ [LF] ++ py "- tidy" ++ [LF]
  ++ py "## Issues" ++ [LF] ++ py "critical: leak".

(** ** Stage A as the specification tells it

    A response is a sequence of blocks: every heading opens one, titled by
    the heading text, that collects the lines up to the next heading; the
    lines before the first heading form a block titled [general]. *)
Fixpoint blocks_from (title : str) (buffer lines : list str)
  : list (str * list str) :=
  match lines with
  | [] => [(title, buffer)]
  | line :: rest =>
      match BaseAIProvider.header_match line with
      | Some t => (title, buffer) :: blocks_from t [] rest
      | None => blocks_from title (buffer ++ [line]) rest
      end
  end.

Definition section_blocks (response : str) : list (str * list str) :=
  blocks_from (py "general") [] (split LF response).

(** The text of the last block titled [title] that holds at least one line. *)
Definition last_stored (title : str) (blocks : list (str * list str))
  : option str :=
  fold_left (fun acc b =>
               if eqb (fst b) title && BaseAIProvider.nonempty (snd b)
               then Some (join [LF] (snd b)) else acc)
            blocks None.

(** The reading of Stage A under which the last heading of a title always
    wins: whenever a title heads two blocks, the mapping holds the text of
    the last of them. *)
Definition last_occurrence_wins : Prop :=
  forall response title pre buffer post,
    section_blocks response = pre ++ (title, buffer) :: post ->
    In title (map fst pre) ->
    ~ In title (map fst post) ->
    BaseAIProvider.dict_get (BaseAIProvider._split_into_sections response) title
    = Some (join [LF] buffer).

(** Two headings of the same text, the second one with nothing under it. *)
Definition repeated_heading : str :=
  py "# A" ++ [LF] ++ py "foo" ++ [LF] ++ py "# A".

Definition repeated_heading_twice : str :=
  py "# A" ++ [LF] ++ py "foo" ++ [LF] ++ py "# A" ++ [LF] ++ py "bar".

(** ** Stage B inputs *)

(** The severity glyphs: the large red, yellow and green circles. *)
Definition RED_CIRCLE : codepoint := 0x1F534%N.
Definition YELLOW_CIRCLE : codepoint := 0x1F7E1%N.
Definition GREEN_CIRCLE : codepoint := 0x1F7E2%N.

(** The Issues section of the specification's example. *)
Definition issues_text : str :=
  [RED_CIRCLE] ++ py " Null check missing" ++ [LF]
  ++ py "Also crashes on empty input" ++ [LF]
  ++ [GREEN_CIRCLE] ++ py " Minor style nit".

(** The same section with the literals of the source file where the glyphs
    stand. *)
Definition issues_text_literals : str :=
  BaseAIProvider.critical_literal ++ py " Null check missing" ++ [LF]
  ++ py "Also crashes on empty input" ++ [LF]
  ++ BaseAIProvider.minor_literal ++ py " Minor style nit".

(** The reading of the example the specification gives. *)
Definition issues_example_as_stated : Prop :=
  exists first second,
    BaseAIProvider._parse_issues issues_text = [first; second]
    /\ Issue.severity first = CRITICAL
    /\ contains (py "Null check missing") (Issue.description first) = true
    /\ contains (py "Also crashes on empty input") (Issue.description first)
       = true
    /\ Issue.severity second = MINOR
    /\ Issue.description second = py "Minor style nit".

(** Some word of the list occurs in the lowered item. *)
Definition mentions (words : list str) (item : str) : Prop :=
  exists word, In word words /\ contains word (lower item) = true.

Definition validation_item : str :=
  py "Add input validation. This prevents crashes.".

(** ** Vocabulary of the further properties *)

(** The path [_process_single_diff] settles on: the post-change path when it
    is a non-empty string, else the pre-change path when that one is. *)
Definition usable_path (d : GitManager.RawDiff.t) (p : str) : Prop :=
  p <> []
  /\ (GitManager.RawDiff.b_path d = GitManager.Value (Some p)
      \/ exists b,
          GitManager.RawDiff.b_path d = GitManager.Value b
          /\ GitManager.opt_truthy b = false
          /\ GitManager.RawDiff.a_path d = GitManager.Value (Some p)).

(** The status the three flags stand for, read in the order new, deleted,
    renamed; a flag is read only when the ones before it are false. *)
Definition flags_status (d : GitManager.RawDiff.t) (st : FileStatus) : Prop :=
  (GitManager.RawDiff.new_file d = GitManager.Value true /\ st = ADDED)
  \/ (GitManager.RawDiff.new_file d = GitManager.Value false
      /\ GitManager.RawDiff.deleted_file d = GitManager.Value true
      /\ st = DELETED)
  \/ (GitManager.RawDiff.new_file d = GitManager.Value false
      /\ GitManager.RawDiff.deleted_file d = GitManager.Value false
      /\ GitManager.RawDiff.renamed_file d = GitManager.Value true
      /\ st = RENAMED)
  \/ (GitManager.RawDiff.new_file d = GitManager.Value false
      /\ GitManager.RawDiff.deleted_file d = GitManager.Value false
      /\ GitManager.RawDiff.renamed_file d = GitManager.Value false
      /\ st = MODIFIED).

(** The number of lines of a patch, none when there is no patch. *)
Definition patch_lines (patch : option str) : nat :=
  match patch with
  | Some p => List.length (split LF p)
  | None => 0
  end.

(** The heading [format_diff_for_review] writes for a file. *)
Definition file_heading (f : FileChange.t) : str :=
  py "## " ++ FileChange.path f ++ py " ("
  ++ FileStatus_value (FileChange.status f) ++ py ")".

(** A new file whose other two flags cannot be read. *)
Definition raw_new_unreadable : GitManager.RawDiff.t :=
  GitManager.RawDiff.mk
    (GitManager.Value (Some (py "n.py"))) (GitManager.Value None)
    (GitManager.Value true) (GitManager.Raises (py "boom"))
    (GitManager.Raises (py "boom"))
    (GitManager.DiffBytes (list_byte_of_string "+new")).

(** A deleted file: only the pre-change path is set, and the patch bytes are
    not UTF-8. *)
Definition raw_deleted_binary : GitManager.RawDiff.t :=
  GitManager.RawDiff.mk
    (GitManager.Value (Some (py "old.bin"))) (GitManager.Value None)
    (GitManager.Value false) (GitManager.Value true) (GitManager.Value false)
    (GitManager.DiffBytes [Byte.xff; Byte.xfe]).

(** A repository that knows one commit, [abc], without parent. *)
Definition root_commit_repo : GitManager.Repo.t :=
  GitManager.Repo.mk
    (Ok [raw_b]) (Ok [])
    (Raise (py "detached"))
    (fun h => if eqb h (py "abc")
              then Ok (GitManager.Commit.mk (py "first commit ") None [raw_a])
              else Raise (py "bad revision")).

(** The file [raw_a] is normalised to. *)
Definition file_a : FileChange.t :=
  FileChange.mk (py "a.py") MODIFIED 2 1
    (Some (py "--- a/a.py" ++ [LF] ++ py "+++ b/a.py" ++ [LF]
           ++ py "+x" ++ [LF] ++ py "-y" ++ [LF] ++ py "+z")).

(** What [diff.diff] holds when no patch text can be had from it. *)
Definition no_text (b : GitManager.blob) : Prop :=
  match b with
  | GitManager.DiffBytes bs =>
      bs = [] \/ GitManager.utf8_decode (map Byte.to_N bs) = None
  | _ => True
  end.

(** A text without white space at either end. *)
Definition no_lead (s : str) : Prop :=
  match s with
  | c :: _ => isspace c = false
  | [] => True
  end.

Definition no_trail (s : str) : Prop := no_lead (rev s).

(** A response none of whose lines is a heading. *)
Definition heading_free (response : str) : Prop :=
  forall line, In line (split LF response) ->
               BaseAIProvider.header_match line = None.

(** The blocks of a response that hold at least one line. *)
Definition stored_blocks (response : str) : list (str * list str) :=
  filter (fun b => BaseAIProvider.nonempty (snd b)) (section_blocks response).

(** The severities the lines of an Issues section announce, in order. *)
Definition marker_severities (content : str) : list Severity :=
  flat_map (fun l => match BaseAIProvider.severity_of_line (strip l) with
                     | Some sev => [sev]
                     | None => []
                     end)
           (split LF content).

(** An issue as [_parse_issues] leaves it: of type [general], with nothing
    but severity and description filled in. *)
Definition bare_issue (i : Issue.t) : Prop :=
  Issue.type i = py "general" /\ Issue.file i = None /\ Issue.line i = None
  /\ Issue.suggestion i = None /\ Issue.code_example i = None.

(** The role a section title is given by the [if]/[elif] chain of
    [parse_review_response]. *)
Inductive role := SummaryRole | StrengthsRole | IssuesRole | SuggestionsRole.

Definition role_of (title : str) : option role :=
  let title_lower := lower title in
  if contains (py "summary") title_lower then Some SummaryRole
  else if contains (py "strength") title_lower then Some StrengthsRole
  else if contains (py "issue") title_lower
          || contains (py "problem") title_lower then Some IssuesRole
  else if contains (py "suggestion") title_lower
          || contains (py "improvement") title_lower then Some SuggestionsRole
  else None.

Definition role_eqb (a : option role) (b : role) : bool :=
  match a, b with
  | Some SummaryRole, SummaryRole => true
  | Some StrengthsRole, StrengthsRole => true
  | Some IssuesRole, IssuesRole => true
  | Some SuggestionsRole, SuggestionsRole => true
  | _, _ => false
  end.

(** The content of the last section, in the order of the mapping, whose
    title has the role. *)
Fixpoint last_of_role (ro : role) (sections : list (str * str)) : option str :=
  match sections with
  | [] => None
  | (title, content) :: rest =>
      match last_of_role ro rest with
      | Some c => Some c
      | None => if role_eqb (role_of title) ro then Some content else None
      end
  end.

(** A response with an Issues section and, further down, a Problems
    section. *)
Definition two_issue_sections : str :=
  py "## Issues" ++ [LF] ++ py "critical: leak" ++ [LF]
  ++ py "## Known problems" ++ [LF] ++ py "minor: typo".

(** Client libraries for the examples: the state is the list of calls made
    so far, newest first, and a client is the key it was built with.  The
    OpenAI client refuses an empty key. *)
Definition sample_anthropic (key : str) (calls : list str)
  : outcome str * list str :=
  (Ok key, py "AsyncAnthropic" :: calls).

Definition sample_openai (key : str) (calls : list str)
  : outcome str * list str :=
  if truthy key then (Ok key, py "AsyncOpenAI" :: calls)
  else (Raise (py "The api_key client option must be set"),
        py "AsyncOpenAI" :: calls).

Definition sample_genai (key : str) (calls : list str)
  : outcome unit * list str :=
  (Ok tt, py "genai.configure" :: calls).

Definition keyed (key : str) : ProviderConfig.t :=
  ProviderConfig.mk key None 4000 (S754_finite false 1 (-3)).

Definition sample_create (provider_name key : str)
  : outcome (Providers.AIProvider str) * list str :=
  Providers.create_provider sample_anthropic sample_openai sample_genai
                            provider_name (keyed key) [].

(* ===================================================================== *)
(** * Properties of the DiffNormalizer *)
(* ===================================================================== *)

Lemma sumZ_app {A : Type} (f : A -> Z) (l1 l2 : list A) :
  sumZ f (l1 ++ l2) = (sumZ f l1 + sumZ f l2)%Z.
Proof.
  induction l1 as [|x l1 IH]; simpl; [reflexivity|].
  rewrite IH. lia.
Qed.

Section GitManagerFacts.

Import GitManager.

Lemma produced_cons (d : RawDiff.t) (l : list RawDiff.t) :
  produced (d :: l)
  = match _process_single_diff d with
    | Some f => f :: produced l
    | None => produced l
    end.
Proof.
  unfold produced. simpl. now destruct (_process_single_diff d).
Qed.

Lemma produced_app (l1 l2 : list RawDiff.t) :
  produced (l1 ++ l2) = produced l1 ++ produced l2.
Proof. apply flat_map_app. Qed.

Lemma process_loop (diffs : list RawDiff.t) :
  forall files ins dels,
    fold_left process_step diffs (files, ins, dels)
    = (files ++ produced diffs,
       (ins + sumZ FileChange.additions (produced diffs))%Z,
       (dels + sumZ FileChange.deletions (produced diffs))%Z).
Proof.
  induction diffs as [|d diffs IH]; intros files ins dels.
  - simpl. now rewrite app_nil_r, !Z.add_0_r.
  - rewrite produced_cons. cbn [fold_left]. unfold process_step at 2.
    destruct (_process_single_diff d) as [f|]; rewrite IH.
    + rewrite <- app_assoc. simpl. f_equal; [f_equal|]; lia.
    + reflexivity.
Qed.

Lemma process_diffs_eq (diffs : list RawDiff.t) (msg : option str)
      (branch : str) :
  _process_diffs diffs msg branch
  = GitDiff.mk (produced diffs)
      (GitStats.mk (Z.of_nat (List.length (produced diffs)))
                   (sumZ FileChange.additions (produced diffs))
                   (sumZ FileChange.deletions (produced diffs)))
      msg (Some branch).
Proof.
  unfold _process_diffs. rewrite process_loop. reflexivity.
Qed.

Lemma process_diffs_consistent (diffs : list RawDiff.t) (msg : option str)
      (branch : str) :
  stats_consistent (_process_diffs diffs msg branch).
Proof.
  rewrite process_diffs_eq. repeat split.
Qed.

Lemma no_path_none (d : RawDiff.t) :
  no_path d -> _process_single_diff d = None.
Proof.
  intros (b & a & Hb & Tb & Ha & Ta).
  unfold _process_single_diff, process_single_diff_body.
  rewrite Hb. simpl. rewrite Tb, Ha. simpl. rewrite Ta. reflexivity.
Qed.

Lemma raises_none (d : RawDiff.t) :
  raises d -> _process_single_diff d = None.
Proof.
  intros [e He]. unfold _process_single_diff. now rewrite He.
Qed.

Lemma omitted_record (d : RawDiff.t) (before after : list RawDiff.t)
      (msg : option str) (branch : str) :
  _process_single_diff d = None ->
  _process_diffs (before ++ d :: after) msg branch
  = _process_diffs (before ++ after) msg branch.
Proof.
  intros H. rewrite !process_diffs_eq.
  assert (E : produced (before ++ d :: after) = produced (before ++ after)).
  { rewrite !produced_app, produced_cons. now rewrite H. }
  now rewrite E.
Qed.

End GitManagerFacts.

Section GitManagerClaims.

Import GitManager.

Example raw_unreadable_raises : raises raw_unreadable.
Proof. exists (py "boom"). reflexivity. Qed.

Example sample_diff_value :
  sample_diff
  = GitDiff.mk
      [FileChange.mk (py "a.py") MODIFIED 2 1
         (Some (py "--- a/a.py" ++ [LF] ++ py "+++ b/a.py" ++ [LF]
                ++ py "+x" ++ [LF] ++ py "-y" ++ [LF] ++ py "+z"));
       FileChange.mk (py "b.log") MODIFIED 1 0 (Some (py "+line"))]
      (GitStats.mk 2 3 1) None (Some (py "main")).
Proof. reflexivity. Qed.

(** C10: a change record whose processing fails (an attribute read raises)
    or that exposes neither a post-change nor a pre-change path yields no
    file; the diff built from a batch holding it is the diff built from the
    batch without it, files and aggregate stats alike, and nothing is
    raised. *)
Theorem C10_failed_record_is_omitted
        (d : RawDiff.t) (before after : list RawDiff.t)
        (msg : option str) (branch : str) :
  raises d \/ no_path d ->
  _process_single_diff d = None
  /\ _process_diffs (before ++ d :: after) msg branch
     = _process_diffs (before ++ after) msg branch
  /\ GitDiff.files (_process_diffs (before ++ d :: after) msg branch)
     = produced before ++ produced after
  /\ stats_consistent (_process_diffs (before ++ d :: after) msg branch).
Proof.
  intros H.
  assert (N : _process_single_diff d = None).
  { destruct H; [now apply raises_none | now apply no_path_none]. }
  split; [exact N|]. split; [now apply omitted_record|].
  split; [|apply process_diffs_consistent].
  rewrite omitted_record by exact N.
  rewrite process_diffs_eq. simpl. apply produced_app.
Qed.

Lemma C10_failed_record_is_omitted_witness :
  _process_single_diff raw_pathless = None
  /\ _process_diffs ([raw_a] ++ raw_pathless :: [raw_b]) None (py "main")
     = _process_diffs ([raw_a] ++ [raw_b]) None (py "main")
  /\ GitDiff.files
       (_process_diffs ([raw_a] ++ raw_pathless :: [raw_b]) None (py "main"))
     = produced [raw_a] ++ produced [raw_b]
  /\ stats_consistent
       (_process_diffs ([raw_a] ++ raw_pathless :: [raw_b]) None (py "main")).
Proof.
  apply (C10_failed_record_is_omitted
           raw_pathless [raw_a] [raw_b] None (py "main")).
  right. exists None, None. repeat split; reflexivity.
Defined.

(** C7: in the working-tree scope (neither [staged] nor a commit hash) the
    file list is the normalised staged changes followed by the normalised
    unstaged changes; nothing is merged, so a path occurs as often as in
    both parts together. *)
Theorem C7_working_diff_concatenates
        (repo : Repo.t) (staged unstaged : list RawDiff.t) :
  Repo.index_diff_HEAD repo = Ok staged ->
  Repo.index_diff_None repo = Ok unstaged ->
  exists diff,
    get_diff repo false None = Ok diff
    /\ GitDiff.files diff
       = GitDiff.files (_process_diffs staged None (get_current_branch repo))
         ++ GitDiff.files
              (_process_diffs unstaged None (get_current_branch repo))
    /\ forall p,
        count_path p (GitDiff.files diff)
        = (count_path p (GitDiff.files
             (_process_diffs staged None (get_current_branch repo)))
           + count_path p (GitDiff.files
               (_process_diffs unstaged None (get_current_branch repo))))%nat.
Proof.
  intros Hs Hu.
  exists (_process_diffs (staged ++ unstaged) None (get_current_branch repo)).
  split.
  - unfold get_diff, _get_working_diff. simpl. rewrite Hs, Hu. reflexivity.
  - rewrite !process_diffs_eq. simpl. rewrite produced_app. split.
    + reflexivity.
    + intros p. unfold count_path. now rewrite filter_app, length_app.
Qed.

Lemma C7_working_diff_concatenates_witness :
  exists diff,
    get_diff sample_repo false None = Ok diff
    /\ GitDiff.files diff
       = GitDiff.files (_process_diffs [raw_a; raw_b] None
                          (get_current_branch sample_repo))
         ++ GitDiff.files (_process_diffs [raw_a_unstaged] None
                             (get_current_branch sample_repo))
    /\ forall p,
        count_path p (GitDiff.files diff)
        = (count_path p (GitDiff.files
             (_process_diffs [raw_a; raw_b] None
                (get_current_branch sample_repo)))
           + count_path p (GitDiff.files
               (_process_diffs [raw_a_unstaged] None
                  (get_current_branch sample_repo))))%nat.
Proof.
  apply (C7_working_diff_concatenates sample_repo); reflexivity.
Defined.

(** The path staged and edited again appears twice in the working diff. *)
Example working_diff_duplicate_path :
  option_map (fun d => map FileChange.path (GitDiff.files d))
             (match get_diff sample_repo false None with
              | Ok d => Some d | Raise _ => None end)
  = Some [py "a.py"; py "b.log"; py "a.py"].
Proof. reflexivity. Qed.

End GitManagerClaims.

(* ===================================================================== *)
(** * Properties of the FileFilter *)
(* ===================================================================== *)

Section FileFilterFacts.

Import ReviewManager.

Variable fnmatch : str -> str -> bool.
Variable config : ReviewConfig.t.

Lemma filter_loop (files : list FileChange.t) :
  forall acc,
    fold_left (filter_step fnmatch config) files acc
    = acc ++ filter (passes fnmatch config) files.
Proof.
  induction files as [|f files IH]; intros acc; simpl.
  - now rewrite app_nil_r.
  - rewrite IH. unfold filter_step, passes.
    destruct (existsb _ (ReviewConfig.exclude_patterns config)); simpl;
      [reflexivity|].
    destruct (existsb _ (ReviewConfig.include_patterns config)); simpl;
      [now rewrite <- app_assoc | reflexivity].
Qed.

Lemma passes_spec (f : FileChange.t) :
  passes fnmatch config f = true
  <-> ~ excluded_by fnmatch config f /\ included_by fnmatch config f.
Proof.
  unfold passes, excluded_by, included_by.
  rewrite andb_true_iff, negb_true_iff, <- not_true_iff_false.
  now rewrite !existsb_exists.
Qed.

Lemma filter_files_stats (git_diff : GitDiff.t) :
  GitDiff.stats (fst (_filter_files fnmatch git_diff config))
  = GitDiff.stats git_diff.
Proof.
  unfold _filter_files.
  now destruct (_ <? _)%Z.
Qed.

Lemma filter_files_files (git_diff : GitDiff.t) :
  let kept := filter (passes fnmatch config) (GitDiff.files git_diff) in
  _filter_files fnmatch git_diff config
  = if (ReviewConfig.max_files_per_review config
        <? Z.of_nat (List.length kept))%Z
    then (GitDiff.mk (slice_to (ReviewConfig.max_files_per_review config) kept)
                     (GitDiff.stats git_diff)
                     (GitDiff.commit_message git_diff)
                     (GitDiff.branch git_diff),
          [limit_warning config])
    else (GitDiff.mk kept (GitDiff.stats git_diff)
                     (GitDiff.commit_message git_diff)
                     (GitDiff.branch git_diff), []).
Proof.
  unfold _filter_files. rewrite filter_loop. simpl.
  now destruct (_ <? _)%Z.
Qed.

End FileFilterFacts.

Section FileFilterClaims.

Import ReviewManager.

(** C6: a file is kept exactly when no exclude pattern matches its path and
    some include pattern does; the kept files stay in their original order;
    beyond [max_files_per_review] the list is cut to its first entries and
    a warning is printed, otherwise nothing is printed; and [run_review]
    raises when the filtered list is empty, returning it otherwise. *)
Theorem C6_file_filter
        (fnmatch : str -> str -> bool) (git_diff : GitDiff.t)
        (config : ReviewConfig.t) :
  (0 < ReviewConfig.max_files_per_review config)%Z ->
  let limit := ReviewConfig.max_files_per_review config in
  let kept := filter (passes fnmatch config) (GitDiff.files git_diff) in
  let out := fst (_filter_files fnmatch git_diff config) in
  let printed := snd (_filter_files fnmatch git_diff config) in
  (forall f, In f kept <->
             In f (GitDiff.files git_diff)
             /\ ~ excluded_by fnmatch config f
             /\ included_by fnmatch config f)
  /\ ((Z.of_nat (List.length kept) <= limit)%Z ->
      GitDiff.files out = kept /\ printed = [])
  /\ ((limit < Z.of_nat (List.length kept))%Z ->
      GitDiff.files out = firstn (Z.to_nat limit) kept
      /\ printed = [limit_warning config])
  /\ (GitDiff.files out = [] <-> kept = [])
  /\ (GitDiff.files git_diff <> [] -> GitDiff.files out = [] ->
      run_review_filter fnmatch git_diff config
      = Raise (py "No files to review after filtering"))
  /\ (GitDiff.files out <> [] ->
      run_review_filter fnmatch git_diff config = Ok (out, printed)).
Proof.
  intros Hpos limit kept out printed.
  assert (E := filter_files_files fnmatch config git_diff).
  cbv zeta in E. fold kept limit in E.
  assert (Hle : (Z.of_nat (List.length kept) <= limit)%Z ->
                GitDiff.files out = kept /\ printed = []).
  { intros H. unfold out, printed. rewrite E.
    apply Z.ltb_ge in H. rewrite H. now split. }
  assert (Hgt : (limit < Z.of_nat (List.length kept))%Z ->
                GitDiff.files out = firstn (Z.to_nat limit) kept
                /\ printed = [limit_warning config]).
  { intros H. unfold out, printed. rewrite E.
    apply Z.ltb_lt in H. rewrite H. simpl. unfold slice_to.
    assert (P : (0 <=? limit)%Z = true) by (apply Z.leb_le; lia).
    rewrite P. now split. }
  assert (Hempty : GitDiff.files out = [] <-> kept = []).
  { destruct (Z_le_gt_dec (Z.of_nat (List.length kept)) limit) as [H|H].
    - destruct (Hle H) as [-> _]. tauto.
    - destruct (Hgt ltac:(lia)) as [-> _]. split.
      + intros F. destruct kept as [|k kept']; [reflexivity|].
        destruct (Z.to_nat limit) eqn:L; [lia | discriminate].
      + intros ->. now rewrite firstn_nil. }
  split; [|split; [exact Hle|split; [exact Hgt|split; [exact Hempty|split]]]].
  - intros f. unfold kept. rewrite filter_In, passes_spec. tauto.
  - intros Hne Hout. unfold run_review_filter.
    destruct (GitDiff.files git_diff) eqn:F; [congruence|]. simpl.
    unfold out in Hout.
    destruct (_filter_files fnmatch git_diff config) as [o pr].
    simpl in Hout. now rewrite Hout.
  - intros Hout. unfold run_review_filter.
    destruct (GitDiff.files git_diff) eqn:F.
    + exfalso. apply Hout. apply Hempty. reflexivity.
    + simpl. unfold out in *. unfold printed.
      destruct (_filter_files fnmatch git_diff config) as [o pr]. simpl in *.
      destruct (GitDiff.files o); [congruence | reflexivity].
Qed.

Lemma C6_file_filter_witness :
  let limit := ReviewConfig.max_files_per_review tight_config in
  let kept := filter (passes literal_match tight_config)
                     (GitDiff.files sample_diff) in
  let out := fst (_filter_files literal_match sample_diff tight_config) in
  let printed := snd (_filter_files literal_match sample_diff tight_config) in
  (forall f, In f kept <->
             In f (GitDiff.files sample_diff)
             /\ ~ excluded_by literal_match tight_config f
             /\ included_by literal_match tight_config f)
  /\ ((Z.of_nat (List.length kept) <= limit)%Z ->
      GitDiff.files out = kept /\ printed = [])
  /\ ((limit < Z.of_nat (List.length kept))%Z ->
      GitDiff.files out = firstn (Z.to_nat limit) kept
      /\ printed = [limit_warning tight_config])
  /\ (GitDiff.files out = [] <-> kept = [])
  /\ (GitDiff.files sample_diff <> [] -> GitDiff.files out = [] ->
      run_review_filter literal_match sample_diff tight_config
      = Raise (py "No files to review after filtering"))
  /\ (GitDiff.files out <> [] ->
      run_review_filter literal_match sample_diff tight_config
      = Ok (out, printed)).
Proof.
  apply (C6_file_filter literal_match sample_diff tight_config).
  reflexivity.
Defined.

Example filter_truncates :
  map FileChange.path
      (GitDiff.files (fst (_filter_files literal_match sample_diff tight_config)))
  = [py "a.py"]
  /\ snd (_filter_files literal_match sample_diff tight_config)
     = [py "[yellow]Warning: Limited to 1 files[/yellow]"].
Proof. split; reflexivity. Qed.

Example filter_all_excluded_raises :
  run_review_filter literal_match sample_diff
                    (ReviewConfig.mk [py "a.py"; py "b.log"] [py "a.py"] 50)
  = Raise (py "No files to review after filtering").
Proof. reflexivity. Qed.

(** C2: the stats of a normalised diff are those of its files; the filter
    copies the stats of the diff it is given, so after a file is dropped
    they no longer are.  The sample diff holds [a.py] (+2 -1) and [b.log]
    (+1 -0); with [b.log] excluded the filtered diff lists one file and
    still reports two files changed and three insertions. *)
Theorem C2_filter_keeps_unfiltered_stats :
  (forall diffs msg branch,
      stats_consistent (GitManager._process_diffs diffs msg branch))
  /\ (forall fnmatch git_diff config,
         GitDiff.stats (fst (_filter_files fnmatch git_diff config))
         = GitDiff.stats git_diff)
  /\ (let filtered := fst (_filter_files literal_match sample_diff
                                         sample_config) in
      stats_consistent sample_diff
      /\ map FileChange.path (GitDiff.files filtered) = [py "a.py"]
      /\ GitDiff.stats filtered = GitStats.mk 2 3 1
      /\ sumZ FileChange.additions (GitDiff.files filtered) = 2%Z
      /\ ~ stats_consistent filtered).
Proof.
  split; [exact process_diffs_consistent|].
  split; [intros; apply filter_files_stats|].
  cbv zeta. split; [apply process_diffs_consistent|].
  repeat split.
  intros [H _]. vm_compute in H. discriminate.
Qed.

End FileFilterClaims.

(* ===================================================================== *)
(** * Properties of the JSON projection *)
(* ===================================================================== *)

Section DatetimeFacts.

Import Datetime.

Lemma digit_inj (a b : Z) : digit a = digit b -> (a mod 10 = b mod 10)%Z.
Proof.
  unfold digit. intros H.
  assert (A : (0 <= a mod 10 < 10)%Z) by (apply Z.mod_pos_bound; lia).
  assert (B : (0 <= b mod 10 < 10)%Z) by (apply Z.mod_pos_bound; lia).
  lia.
Qed.

Lemma pad2_inj (a b : Z) :
  (0 <= a < 100)%Z -> (0 <= b < 100)%Z -> pad2 a = pad2 b -> a = b.
Proof.
  intros Ha Hb H. unfold pad2 in H. injection H as H1 H0.
  apply digit_inj in H1, H0.
  Z.to_euclidean_division_equations. lia.
Qed.

Lemma pad4_inj (a b : Z) :
  (0 <= a < 10000)%Z -> (0 <= b < 10000)%Z -> pad4 a = pad4 b -> a = b.
Proof.
  intros Ha Hb H. unfold pad4 in H. injection H as H3 H2 H1 H0.
  apply digit_inj in H3, H2, H1, H0.
  Z.to_euclidean_division_equations. lia.
Qed.

Lemma pad6_inj (a b : Z) :
  (0 <= a < 1000000)%Z -> (0 <= b < 1000000)%Z -> pad6 a = pad6 b -> a = b.
Proof.
  intros Ha Hb H. unfold pad6 in H. injection H as H5 H4 H3 H2 H1 H0.
  apply digit_inj in H5, H4, H3, H2, H1, H0.
  Z.to_euclidean_division_equations. lia.
Qed.

Lemma isoformat_inj (d1 d2 : t) :
  valid d1 -> valid d2 -> isoformat d1 = isoformat d2 -> d1 = d2.
Proof.
  destruct d1 as [y1 mo1 da1 h1 mi1 s1 us1], d2 as [y2 mo2 da2 h2 mi2 s2 us2].
  unfold valid, isoformat. simpl.
  intros V1 V2 H.
  unfold pad4, pad2 in H. cbn -[digit Z.div Z.modulo Z.eqb pad6] in H.
  injection H as Ey3 Ey2 Ey1 Ey0 Emo1 Emo0 Eda1 Eda0 Eh1 Eh0 Emi1 Emi0
                 Es1 Es0 Eus.
  assert (Hy : y1 = y2)
    by (apply pad4_inj; [lia | lia | unfold pad4; now rewrite Ey3, Ey2, Ey1, Ey0]).
  assert (Hmo : mo1 = mo2)
    by (apply pad2_inj; [lia | lia | unfold pad2; now rewrite Emo1, Emo0]).
  assert (Hda : da1 = da2)
    by (apply pad2_inj; [lia | lia | unfold pad2; now rewrite Eda1, Eda0]).
  assert (Hh : h1 = h2)
    by (apply pad2_inj; [lia | lia | unfold pad2; now rewrite Eh1, Eh0]).
  assert (Hmi : mi1 = mi2)
    by (apply pad2_inj; [lia | lia | unfold pad2; now rewrite Emi1, Emi0]).
  assert (Hs : s1 = s2)
    by (apply pad2_inj; [lia | lia | unfold pad2; now rewrite Es1, Es0]).
  assert (Hus : us1 = us2).
  { destruct (Z.eqb_spec us1 0), (Z.eqb_spec us2 0).
    - congruence.
    - discriminate.
    - discriminate.
    - injection Eus as E5 E4 E3 E2 E1 E0.
      apply pad6_inj; [lia | lia | unfold pad6; now rewrite E5, E4, E3, E2, E1, E0]. }
  now subst.
Qed.

Lemma digits_value_digit (acc x : Z) (rest : str) :
  digits_value acc (digit x :: rest)
  = digits_value (10 * acc + x mod 10)%Z rest.
Proof.
  assert (A : (0 <= x mod 10 < 10)%Z) by (apply Z.mod_pos_bound; lia).
  cbn [digits_value]. unfold digit.
  replace ((48 <=? 48 + Z.to_N (x mod 10))
           && (48 + Z.to_N (x mod 10) <=? 57))%N with true
    by (symmetry; apply andb_true_iff; split; apply N.leb_le; lia).
  f_equal. lia.
Qed.

Lemma pad2_numeral (n : Z) : (0 <= n < 100)%Z -> numeral 2 n (pad2 n).
Proof.
  intros H. split; [reflexivity|]. unfold pad2.
  rewrite !digits_value_digit. cbn [digits_value]. f_equal.
  Z.to_euclidean_division_equations. lia.
Qed.

Lemma pad4_numeral (n : Z) : (0 <= n < 10000)%Z -> numeral 4 n (pad4 n).
Proof.
  intros H. split; [reflexivity|]. unfold pad4.
  rewrite !digits_value_digit. cbn [digits_value]. f_equal.
  Z.to_euclidean_division_equations. lia.
Qed.

Lemma pad6_numeral (n : Z) : (0 <= n < 1000000)%Z -> numeral 6 n (pad6 n).
Proof.
  intros H. split; [reflexivity|]. unfold pad6.
  rewrite !digits_value_digit. cbn [digits_value]. f_equal.
  Z.to_euclidean_division_equations. lia.
Qed.

Lemma isoformat_iso8601 (d : t) : valid d -> iso8601 d (isoformat d).
Proof.
  intros (Vy & Vmo & Vd & Vh & Vmi & Vs & Vus).
  exists (pad4 (year d)), (pad2 (month d)), (pad2 (day d)),
         (pad2 (hour d)), (pad2 (minute d)), (pad2 (second d)),
         (if (microsecond d =? 0)%Z then []
          else py "." ++ pad6 (microsecond d)).
  split; [reflexivity|].
  split; [apply pad4_numeral; lia|].
  split; [apply pad2_numeral; lia|].
  split; [apply pad2_numeral; lia|].
  split; [apply pad2_numeral; lia|].
  split; [apply pad2_numeral; lia|].
  split; [apply pad2_numeral; lia|].
  destruct (Z.eqb_spec (microsecond d) 0) as [E|E].
  - left. now split.
  - right. split; [exact E|].
    exists (pad6 (microsecond d)). split; [reflexivity|].
    apply pad6_numeral; lia.
Qed.

End DatetimeFacts.

Section SerializationFacts.

Import ReviewManager.

Lemma map_inj {A B : Type} (f : A -> B) :
  (forall x y, f x = f y -> x = y) ->
  forall l1 l2, map f l1 = map f l2 -> l1 = l2.
Proof.
  intros Hf l1. induction l1 as [|x l1 IH]; intros [|y l2] H;
    simpl in H; try discriminate; [reflexivity|].
  injection H as Hx Hl. f_equal; [now apply Hf | now apply IH].
Qed.

Lemma JStr_inj (s t : str) : JStr s = JStr t -> s = t.
Proof. now intros [= ->]. Qed.

Lemma Severity_value_inj (a b : Severity) :
  Severity_value a = Severity_value b -> a = b.
Proof. destruct a, b; simpl; intros H; try reflexivity; discriminate. Qed.

Lemma Priority_value_inj (a b : Priority) :
  Priority_value a = Priority_value b -> a = b.
Proof. destruct a, b; simpl; intros H; try reflexivity; discriminate. Qed.

Lemma json_opt_str_inj (a b : option str) :
  json_opt_str a = json_opt_str b -> a = b.
Proof. destruct a, b; simpl; intros H; congruence. Qed.

Lemma json_opt_int_inj (a b : option Z) :
  json_opt_int a = json_opt_int b -> a = b.
Proof. destruct a, b; simpl; intros H; congruence. Qed.

Lemma json_opt_float_inj (a b : option float) :
  json_opt_float a = json_opt_float b -> a = b.
Proof. destruct a, b; simpl; intros H; congruence. Qed.

Lemma serialize_tokens_inj (a b : option TokenUsage.t) :
  serialize_tokens a = serialize_tokens b -> a = b.
Proof.
  destruct a as [[]|], b as [[]|]; simpl; intros H; congruence.
Qed.

Lemma serialize_issue_inj (a b : Issue.t) :
  serialize_issue a = serialize_issue b -> a = b.
Proof.
  destruct a, b. unfold serialize_issue. simpl.
  intros [= Hsev Hty Hfile Hline Hdescr Hsug Hcode].
  apply Severity_value_inj in Hsev.
  apply json_opt_str_inj in Hfile, Hsug, Hcode.
  apply json_opt_int_inj in Hline.
  now subst.
Qed.

Lemma serialize_suggestion_inj (a b : Suggestion.t) :
  serialize_suggestion a = serialize_suggestion b -> a = b.
Proof.
  destruct a, b. unfold serialize_suggestion. simpl.
  intros [= Hid Hti Hdescr Hfiles Hprio Hdone Hex].
  apply Priority_value_inj in Hprio.
  apply (map_inj JStr JStr_inj) in Hfiles.
  apply json_opt_str_inj in Hex.
  now subst.
Qed.

Lemma Forall2_map_r {A B : Type} (R : A -> B -> Prop) (f : A -> B) :
  (forall x, R x (f x)) -> forall l, Forall2 R l (map f l).
Proof.
  intros H l. induction l as [|x l IH]; simpl; constructor; auto.
Qed.

(** C8, as amended: the JSON projection determines every field of a result
    except [raw_response], which it leaves out.  Two results (with
    timestamps [datetime] accepts) that serialise alike agree on provider,
    model, timestamp, summary, strengths, issues, suggestions, tokens and
    estimated cost.  In what is written, the timestamp is the ISO 8601
    text of the result's timestamp, the severity of every issue is one of
    the strings [critical], [major], [minor] and the priority of every
    suggestion one of [high], [medium], [low], each the lower-case name of
    the value it stands for; there is no [raw_response] member. *)
Theorem C8_serialization_keeps_all_but_raw_response (r1 r2 : ReviewResult.t) :
  Datetime.valid (ReviewResult.timestamp r1) ->
  Datetime.valid (ReviewResult.timestamp r2) ->
  (_serialize_result r1 = _serialize_result r2 ->
   ReviewResult.provider r1 = ReviewResult.provider r2
   /\ ReviewResult.model r1 = ReviewResult.model r2
   /\ ReviewResult.timestamp r1 = ReviewResult.timestamp r2
   /\ ReviewResult.summary r1 = ReviewResult.summary r2
   /\ ReviewResult.strengths r1 = ReviewResult.strengths r2
   /\ ReviewResult.issues r1 = ReviewResult.issues r2
   /\ ReviewResult.suggestions r1 = ReviewResult.suggestions r2
   /\ ReviewResult.tokens r1 = ReviewResult.tokens r2
   /\ ReviewResult.estimated_cost r1 = ReviewResult.estimated_cost r2)
  /\ (exists text,
         member (py "timestamp") (_serialize_result r1) = Some (JStr text)
         /\ iso8601 (ReviewResult.timestamp r1) text)
  /\ (exists written,
         member (py "issues") (_serialize_result r1) = Some (JList written)
         /\ Forall2
              (fun issue j =>
                 member (py "severity") j
                 = Some (JStr match Issue.severity issue with
                              | CRITICAL => py "critical"
                              | MAJOR => py "major"
                              | MINOR => py "minor"
                              end))
              (ReviewResult.issues r1) written)
  /\ (exists written,
         member (py "suggestions") (_serialize_result r1)
         = Some (JList written)
         /\ Forall2
              (fun suggestion j =>
                 member (py "priority") j
                 = Some (JStr match Suggestion.priority suggestion with
                              | HIGH => py "high"
                              | MEDIUM => py "medium"
                              | LOW => py "low"
                              end))
              (ReviewResult.suggestions r1) written)
  /\ member (py "raw_response") (_serialize_result r1) = None.
Proof.
  intros V1 V2. split; [|split; [|split; [|split]]].
  - unfold _serialize_result.
    remember (Datetime.isoformat (ReviewResult.timestamp r1)) as i1 eqn:E1.
    remember (Datetime.isoformat (ReviewResult.timestamp r2)) as i2 eqn:E2.
    intros [= Hprov Hmodel Hts Hsum Hstr Hiss Hsug Htok Hcost].
    rewrite E1, E2 in Hts.
    apply isoformat_inj in Hts; [|assumption|assumption].
    apply (map_inj JStr JStr_inj) in Hstr.
    apply (map_inj serialize_issue serialize_issue_inj) in Hiss.
    apply (map_inj serialize_suggestion serialize_suggestion_inj) in Hsug.
    apply serialize_tokens_inj in Htok.
    apply json_opt_float_inj in Hcost.
    repeat split; assumption.
  - exists (Datetime.isoformat (ReviewResult.timestamp r1)).
    split; [reflexivity|]. now apply isoformat_iso8601.
  - exists (map serialize_issue (ReviewResult.issues r1)).
    split; [reflexivity|].
    apply Forall2_map_r. intros issue.
    destruct (Issue.severity issue) eqn:E;
      unfold serialize_issue; rewrite E; reflexivity.
  - exists (map serialize_suggestion (ReviewResult.suggestions r1)).
    split; [reflexivity|].
    apply Forall2_map_r. intros suggestion.
    destruct (Suggestion.priority suggestion) eqn:E;
      unfold serialize_suggestion; rewrite E; reflexivity.
  - reflexivity.
Qed.

Lemma sample_now_valid : Datetime.valid sample_now.
Proof. unfold Datetime.valid, sample_now. simpl. lia. Defined.

Lemma C8_serialization_keeps_all_but_raw_response_witness :
  (ReviewResult.provider audited = ReviewResult.provider unaudited
   /\ ReviewResult.model audited = ReviewResult.model unaudited
   /\ ReviewResult.timestamp audited = ReviewResult.timestamp unaudited
   /\ ReviewResult.summary audited = ReviewResult.summary unaudited
   /\ ReviewResult.strengths audited = ReviewResult.strengths unaudited
   /\ ReviewResult.issues audited = ReviewResult.issues unaudited
   /\ ReviewResult.suggestions audited = ReviewResult.suggestions unaudited
   /\ ReviewResult.tokens audited = ReviewResult.tokens unaudited
   /\ ReviewResult.estimated_cost audited
      = ReviewResult.estimated_cost unaudited)
  /\ (exists text,
         member (py "timestamp") (_serialize_result audited)
         = Some (JStr text)
         /\ iso8601 sample_now text)
  /\ member (py "raw_response") (_serialize_result audited) = None.
Proof.
  destruct (C8_serialization_keeps_all_but_raw_response
              audited unaudited sample_now_valid sample_now_valid)
    as (Same & Stamp & _ & _ & Raw).
  split; [exact (Same eq_refl)|]. split; [exact Stamp | exact Raw].
Defined.

(** C8, as stated, fails: two results that differ in [raw_response]
    serialise to the same JSON, so nothing that reads the JSON back can
    return both. *)
Lemma C8_raw_response_is_not_serialized :
  audited <> unaudited
  /\ _serialize_result audited = _serialize_result unaudited
  /\ ~ (exists reparse : json -> ReviewResult.t,
           forall r, Datetime.valid (ReviewResult.timestamp r) ->
                     reparse (_serialize_result r) = r).
Proof.
  assert (D : audited <> unaudited) by (intros H; discriminate H).
  split; [exact D|]. split; [reflexivity|].
  intros [reparse H]. apply D.
  rewrite <- (H audited sample_now_valid).
  rewrite <- (H unaudited sample_now_valid).
  reflexivity.
Qed.

Example sample_timestamp_text :
  Datetime.isoformat sample_now = py "2024-05-17T09:30:00.250000".
Proof. reflexivity. Qed.

End SerializationFacts.

(* ===================================================================== *)
(** * Properties of the ResponseInterpreter *)
(* ===================================================================== *)

Section InterpreterFacts.

Import BaseAIProvider.

Lemma same_origin_refl (r : ReviewResult.t) : same_origin r r.
Proof. repeat split. Qed.

Lemma same_origin_trans (r1 r2 r3 : ReviewResult.t) :
  same_origin r1 r2 -> same_origin r2 r3 -> same_origin r1 r3.
Proof.
  unfold same_origin. intros (A & B & C & D) (A' & B' & C' & D').
  repeat split; congruence.
Qed.

Lemma parse_sections_origin (self : Methods.t) (items : dict) :
  forall r, same_origin r (fst (parse_sections self r items)).
Proof.
  induction items as [|[title content] items IH]; intros r; simpl.
  - apply same_origin_refl.
  - destruct (contains _ _).
    { eapply same_origin_trans; [|apply IH]. repeat split. }
    destruct (contains _ _).
    { destruct (Methods.extract_list_items self content); simpl.
      - eapply same_origin_trans; [|apply IH]. repeat split.
      - apply same_origin_refl. }
    destruct (_ || _).
    { destruct (Methods.parse_issues self content); simpl.
      - eapply same_origin_trans; [|apply IH]. repeat split.
      - apply same_origin_refl. }
    destruct (_ || _).
    { destruct (Methods.parse_suggestions self content); simpl.
      - eapply same_origin_trans; [|apply IH]. repeat split.
      - apply same_origin_refl. }
    apply IH.
Qed.

Lemma try_parse_origin (self : Methods.t) (r : ReviewResult.t)
      (response : str) :
  same_origin r (fst (try_parse self r response)).
Proof.
  unfold try_parse.
  destruct (Methods.split_into_sections self response); simpl.
  - apply parse_sections_origin.
  - apply same_origin_refl.
Qed.

Lemma base_parse_sections_total (dec : codepoint -> bool) (items : dict) :
  forall r, snd (parse_sections (base dec) r items) = None.
Proof.
  induction items as [|[title content] items IH]; intros r; simpl.
  - reflexivity.
  - repeat (match goal with
            | |- context [if ?b then _ else _] => destruct b
            end; try apply IH).
Qed.

(** C1: [parse_review_response] is total: whatever the text and whatever
    the helpers do, it returns a result that carries the provider, the
    model and the text handed in, the latter verbatim in [raw_response].
    When the [try] block raises [e], the returned result has the summary
    [Parsing error: e] and no issues and no suggestions.  With the helpers
    of the base class the block never raises. *)
Theorem C1_parse_review_response_total
        (self : Methods.t) (now : Datetime.t) (response provider model : str) :
  let fresh := ReviewResult.make now provider model (Some response) in
  let result := parse_review_response self now response provider model in
  ReviewResult.provider result = provider
  /\ ReviewResult.model result = model
  /\ ReviewResult.timestamp result = now
  /\ ReviewResult.raw_response result = Some response
  /\ (forall e, snd (try_parse self fresh response) = Some e ->
                ReviewResult.summary result = py "Parsing error: " ++ e
                /\ ReviewResult.issues result = []
                /\ ReviewResult.suggestions result = [])
  /\ (snd (try_parse self fresh response) = None ->
      result = fst (try_parse self fresh response))
  /\ (forall dec, snd (try_parse (base dec) fresh response) = None).
Proof.
  intros fresh result.
  assert (O := try_parse_origin self fresh response).
  unfold result, parse_review_response. fold fresh.
  assert (B : forall dec, snd (try_parse (base dec) fresh response) = None).
  { intros dec. unfold try_parse. simpl. apply base_parse_sections_total. }
  destruct (try_parse self fresh response) as [r [e|]] eqn:T;
    simpl in O; destruct O as (Op & Om & Ot & Or); simpl;
    (split; [exact Op|]); (split; [exact Om|]); (split; [exact Ot|]);
    (split; [exact Or|]); (split; [|split; [|exact B]]).
  - intros e' [= <-]. now repeat split.
  - discriminate.
  - discriminate.
  - reflexivity.
Qed.

Example failing_provider_degrades :
  let result := parse_review_response failing_provider sample_now
                  failing_response (py "claude") (py "sonnet") in
  ReviewResult.summary result = py "Parsing error: boom"
  /\ ReviewResult.strengths result = [py "tidy"]
  /\ ReviewResult.issues result = []
  /\ ReviewResult.suggestions result = []
  /\ ReviewResult.raw_response result = Some failing_response.
Proof. repeat split. Qed.

End InterpreterFacts.

Section SectionSplittingFacts.

Import BaseAIProvider.

Lemma eqb_eq (s t : str) : eqb s t = true <-> s = t.
Proof.
  revert t. induction s as [|a s IH]; intros [|b t]; simpl;
    try (split; [discriminate | discriminate]); [tauto|].
  rewrite andb_true_iff, N.eqb_eq, IH. split.
  - intros [-> ->]. reflexivity.
  - intros [= -> ->]. now split.
Qed.

Lemma eqb_refl (s : str) : eqb s s = true.
Proof. now apply eqb_eq. Qed.

Lemma eqb_neq (s t : str) : eqb s t = false <-> s <> t.
Proof. rewrite <- eqb_eq. now destruct (eqb s t). Qed.

Lemma dict_get_set (d : dict) (k' v k : str) :
  dict_get (dict_set d k' v) k
  = if eqb k' k then Some v else dict_get d k.
Proof.
  induction d as [|[k0 v0] d IH]; simpl; [reflexivity|].
  destruct (eqb k0 k') eqn:E0; simpl.
  - apply eqb_eq in E0. subst k0. now destruct (eqb k' k).
  - rewrite IH. destruct (eqb k0 k) eqn:E1; [|reflexivity].
    apply eqb_eq in E1. subst k0. now rewrite (proj2 (eqb_neq k' k)) by
        (intros ->; rewrite eqb_refl in E0; discriminate).
Qed.

Lemma dict_set_keys (d : dict) (k v k0 : str) :
  In k0 (map fst (dict_set d k v)) <-> k0 = k \/ In k0 (map fst d).
Proof.
  induction d as [|[k1 v1] d IH]; simpl.
  - intuition.
  - destruct (eqb k1 k) eqn:E; simpl.
    + apply eqb_eq in E. subst k1. intuition.
    + rewrite IH. intuition.
Qed.

Lemma dict_set_NoDup (d : dict) (k v : str) :
  NoDup (map fst d) -> NoDup (map fst (dict_set d k v)).
Proof.
  induction d as [|[k1 v1] d IH]; simpl; intros H.
  - constructor; [intros [] | constructor].
  - inversion H as [|? ? Hn Hd]; subst.
    destruct (eqb k1 k) eqn:E; simpl.
    + apply eqb_eq in E. subst k1. now constructor.
    + constructor; [|now apply IH].
      rewrite dict_set_keys. intros [->|Hin]; [|contradiction].
      rewrite eqb_refl in E. discriminate.
Qed.

Lemma flush_NoDup (d : dict) (t : str) (buf : list str) :
  NoDup (map fst d) -> NoDup (map fst (flush d t buf)).
Proof.
  unfold flush. destruct (nonempty buf); [apply dict_set_NoDup | easy].
Qed.

(** The loop of [_split_into_sections] stores the blocks one by one. *)
Lemma split_loop (lines : list str) :
  forall sections title buffer,
    (let '(s', t', b') :=
       fold_left split_step lines (sections, title, buffer) in
     flush s' t' b')
    = fold_left (fun d b => flush d (fst b) (snd b))
                (blocks_from title buffer lines) sections.
Proof.
  induction lines as [|line rest IH]; intros sections title buffer.
  - reflexivity.
  - cbn [fold_left blocks_from]. unfold split_step at 2.
    destruct (header_match line) as [t|]; rewrite IH; reflexivity.
Qed.

Lemma split_into_sections_blocks (response : str) :
  _split_into_sections response
  = fold_left (fun d b => flush d (fst b) (snd b))
              (section_blocks response) [].
Proof.
  unfold _split_into_sections, section_blocks. apply split_loop.
Qed.

Lemma stored_blocks_get (title : str) (blocks : list (str * list str)) :
  forall d,
    dict_get (fold_left (fun d b => flush d (fst b) (snd b)) blocks d) title
    = fold_left (fun acc b =>
                   if eqb (fst b) title && nonempty (snd b)
                   then Some (join [LF] (snd b)) else acc)
                blocks (dict_get d title).
Proof.
  induction blocks as [|[t buf] blocks IH]; intros d; simpl; [reflexivity|].
  rewrite IH. f_equal. unfold flush.
  destruct (nonempty buf); [|now rewrite andb_false_r].
  rewrite dict_get_set, andb_true_r. reflexivity.
Qed.

Lemma stored_blocks_NoDup (blocks : list (str * list str)) :
  forall d, NoDup (map fst d) ->
            NoDup (map fst (fold_left (fun d b => flush d (fst b) (snd b))
                                      blocks d)).
Proof.
  induction blocks as [|[t buf] blocks IH]; intros d H; simpl; [exact H|].
  apply IH. now apply flush_NoDup.
Qed.

Lemma last_stored_skip (title : str) (post : list (str * list str)) :
  (forall b, In b post -> fst b = title -> snd b = []) ->
  forall acc,
    fold_left (fun acc b =>
                 if eqb (fst b) title && nonempty (snd b)
                 then Some (join [LF] (snd b)) else acc)
              post acc = acc.
Proof.
  induction post as [|[t buf] post IH]; intros H acc; simpl; [reflexivity|].
  rewrite IH by (intros b Hb; apply H; now right).
  destruct (eqb t title) eqn:E; [|reflexivity].
  apply eqb_eq in E.
  assert (B : buf = []) by (apply (H (t, buf)); [now left | exact E]).
  now rewrite B.
Qed.

(** C9, as amended: the mapping holds at most one text per title, and for
    a title it is the text of the last block of that title that holds at
    least one line; a block without lines (a heading directly followed by
    another heading or by the end of the text) stores nothing and leaves an
    earlier text of the same title in place. *)
Theorem C9_last_nonempty_section_wins
        (response title : str) (pre post : list (str * list str))
        (buffer : list str) :
  section_blocks response = pre ++ (title, buffer) :: post ->
  buffer <> [] ->
  (forall b, In b post -> fst b = title -> snd b = []) ->
  dict_get (_split_into_sections response) title = Some (join [LF] buffer)
  /\ NoDup (map fst (_split_into_sections response))
  /\ forall other,
      dict_get (_split_into_sections response) other
      = last_stored other (section_blocks response).
Proof.
  intros Hb Hne Hpost.
  assert (G : forall other,
             dict_get (_split_into_sections response) other
             = last_stored other (section_blocks response)).
  { intros other. rewrite split_into_sections_blocks.
    now rewrite stored_blocks_get. }
  split; [|split; [|exact G]].
  - rewrite G. unfold last_stored. rewrite Hb, fold_left_app. simpl.
    rewrite eqb_refl. destruct buffer; [congruence|]. simpl.
    now apply last_stored_skip.
  - rewrite split_into_sections_blocks. apply stored_blocks_NoDup.
    constructor.
Qed.

Lemma C9_last_nonempty_section_wins_witness :
  dict_get (_split_into_sections repeated_heading) (py "A")
  = Some (join [LF] [py "foo"])
  /\ NoDup (map fst (_split_into_sections repeated_heading))
  /\ forall other,
      dict_get (_split_into_sections repeated_heading) other
      = last_stored other (section_blocks repeated_heading).
Proof.
  apply (C9_last_nonempty_section_wins
           repeated_heading (py "A")
           [(py "general", [])] [(py "A", [])] [py "foo"]).
  - reflexivity.
  - discriminate.
  - intros b [<-|[]] _. reflexivity.
Defined.

(** C9, as stated, fails: in [# A / foo / # A] the last heading [A] has
    nothing under it, and the mapping keeps the text of the first. *)
Lemma C9_empty_last_section_keeps_earlier :
  section_blocks repeated_heading
  = [(py "general", []); (py "A", [py "foo"]); (py "A", [])]
  /\ _split_into_sections repeated_heading = [(py "A", py "foo")]
  /\ ~ last_occurrence_wins.
Proof.
  split; [reflexivity|]. split; [reflexivity|].
  intros H.
  specialize (H repeated_heading (py "A")
                [(py "general", []); (py "A", [py "foo"])] [] []
                eq_refl).
  simpl in H.
  assert (E : Some (py "foo") = Some (@nil codepoint)).
  { apply H; [right; left; reflexivity | intros []]. }
  discriminate E.
Qed.

(** With lines under both headings the second text replaces the first. *)
Example repeated_heading_overwrites :
  _split_into_sections repeated_heading_twice = [(py "A", py "bar")].
Proof. reflexivity. Qed.

End SectionSplittingFacts.

Section IssueFacts.

Import BaseAIProvider.

Lemma issue_loop_no_marker (lines : list str) :
  (forall l, In l lines -> severity_of_line (strip l) = None) ->
  fold_left issue_step lines ([], None) = ([], None).
Proof.
  induction lines as [|l lines IH]; intros H; simpl; [reflexivity|].
  rewrite (H l (or_introl eq_refl)). apply IH.
  intros l' Hl'. apply H. now right.
Qed.

(** A section none of whose lines announces a severity yields no issue. *)
Lemma parse_issues_no_marker (content : str) :
  (forall l, In l (split LF content) -> severity_of_line (strip l) = None) ->
  _parse_issues content = [].
Proof.
  intros H. unfold _parse_issues. now rewrite issue_loop_no_marker.
Qed.

(** The chain tests critical first, then major, then minor. *)
Lemma severity_of_line_order (line : str) :
  (contains (py "critical") (lower line) = true ->
   severity_of_line line = Some CRITICAL)
  /\ (severity_of_line line = Some MINOR ->
      contains (py "critical") (lower line) = false
      /\ contains (py "major") (lower line) = false).
Proof.
  unfold severity_of_line. split.
  - intros ->. now rewrite orb_true_r.
  - destruct (contains critical_literal line),
      (contains (py "critical") (lower line)),
      (contains major_literal line),
      (contains (py "major") (lower line));
      simpl; try discriminate; intros _; now split.
Qed.

(** C3: the source tests a line for three four-code-point literals, none
    of which is the red, yellow or green circle.  A line that carries the
    red circle and no keyword is therefore no severity marker, and a
    section made of that line yields no issue; the keyword and the literal
    of the source are recognised. *)
Theorem C3_glyph_line_is_not_a_marker :
  severity_of_line ([RED_CIRCLE] ++ py " Null check missing") = None
  /\ severity_of_line ([YELLOW_CIRCLE] ++ py " Slow loop") = None
  /\ severity_of_line ([GREEN_CIRCLE] ++ py " Style nit") = None
  /\ _parse_issues ([RED_CIRCLE] ++ py " Null check missing") = []
  /\ _parse_issues (critical_literal ++ py " Null check missing")
     = [Issue.make CRITICAL (py "general") (py "Null check missing")]
  /\ _parse_issues (py "Critical: Null check missing")
     = [Issue.make CRITICAL (py "general") (py "Null check missing")].
Proof. repeat split. Qed.

(** C4, as stated, fails: the example yields one issue, not two, and no
    issue is described as [Minor style nit]; with the literals of the
    source in place of the glyphs there are two issues and the second is
    described as [style nit], the keyword being removed with the marker. *)
Lemma C4_example_differs :
  ~ issues_example_as_stated
  /\ List.length (_parse_issues issues_text) = 1%nat
  /\ (forall i, In i (_parse_issues issues_text) ->
                Issue.description i <> py "Minor style nit")
  /\ _parse_issues issues_text_literals
     = [Issue.make CRITICAL (py "general")
          (py "Null check missing Also crashes on empty input");
        Issue.make MINOR (py "general") (py "style nit")].
Proof.
  split.
  - intros (first & second & H & _). vm_compute in H. discriminate H.
  - split; [reflexivity|]. split; [|reflexivity].
    intros i [<-|[]]. vm_compute. discriminate.
Qed.

(** C4, as amended: the last issue of the example is a Minor issue of type
    [general]; its description ends in [style nit] and does not hold the
    keyword [Minor], which is removed together with the marker. *)
Theorem C4_example_minor_issue :
  exists earlier last,
    _parse_issues issues_text = earlier ++ [last]
    /\ Issue.severity last = MINOR
    /\ Issue.type last = py "general"
    /\ (exists before, Issue.description last = before ++ py "style nit")
    /\ contains (py "Minor") (Issue.description last) = false
    /\ Issue.description last <> py "Minor style nit".
Proof.
  exists [], (Issue.make MINOR (py "general")
                ([GREEN_CIRCLE] ++ py " style nit")).
  split; [reflexivity|]. split; [reflexivity|]. split; [reflexivity|].
  split; [exists [GREEN_CIRCLE; 32%N]; reflexivity|].
  split; [reflexivity|]. vm_compute. discriminate.
Qed.

End IssueFacts.

Section SuggestionFacts.

Import BaseAIProvider.

(** The suggestion built from one entry of [enumerate(items)]. *)
Lemma suggestion_loop (entries : list (nat * str)) :
  forall acc,
    fold_left suggestion_step entries acc
    = acc ++ map (fun e => Suggestion.make
                             (py "suggestion-" ++ of_int (Z.of_nat (fst e) + 1))
                             (suggestion_title (snd e)) (snd e)
                             (suggestion_priority (snd e)))
                 entries.
Proof.
  induction entries as [|[i item] entries IH]; intros acc; simpl.
  - now rewrite app_nil_r.
  - rewrite IH, <- app_assoc. reflexivity.
Qed.

Lemma enumerate_nth {A : Type} (l : list A) :
  forall k n x,
    nth_error l n = Some x ->
    nth_error (combine (seq k (List.length l)) l) n = Some ((k + n)%nat, x).
Proof.
  induction l as [|a l IH]; intros k [|n] x H; simpl in *; try discriminate.
  - injection H as ->. now rewrite Nat.add_0_r.
  - rewrite (IH (S k) n x H). f_equal. f_equal. lia.
Qed.

Lemma enumerate_length {A : Type} (l : list A) :
  List.length (enumerate l) = List.length l.
Proof.
  unfold enumerate. rewrite length_combine, length_seq. apply Nat.min_id.
Qed.

Lemma contains_char (c : codepoint) (s : str) :
  contains [c] s = true <-> In c s.
Proof.
  induction s as [|a s IH]; simpl.
  - split; [discriminate | intros []].
  - rewrite orb_true_iff, IH, andb_true_r, N.eqb_eq. intuition.
Qed.

Lemma split_nonempty (sep : codepoint) (s : str) : split sep s <> [].
Proof.
  induction s as [|c s IH]; simpl; [discriminate|].
  destruct (N.eqb c sep); [discriminate|].
  destruct (split sep s); [contradiction | discriminate].
Qed.

Lemma split_head (sep : codepoint) (before after : str) :
  ~ In sep before ->
  hd [] (split sep (before ++ sep :: after)) = before.
Proof.
  induction before as [|c before IH]; intros H; simpl.
  - now rewrite N.eqb_refl.
  - assert (Hc : N.eqb c sep = false).
    { apply N.eqb_neq. intros ->. apply H. now left. }
    rewrite Hc.
    assert (IH' := IH (fun K => H (or_intror K))).
    destruct (split sep (before ++ sep :: after)) eqn:E.
    + now apply split_nonempty in E.
    + simpl in *. now subst.
Qed.

Lemma first_occurrence (c : codepoint) (s : str) :
  In c s -> exists before after, s = before ++ c :: after /\ ~ In c before.
Proof.
  induction s as [|a s IH]; intros H; [destruct H|].
  destruct (N.eq_dec a c) as [->|Hne].
  - exists [], s. split; [reflexivity | intros []].
  - destruct H as [->|H]; [congruence|].
    destruct (IH H) as (before & after & -> & Hb).
    exists (a :: before), after. split; [reflexivity|].
    intros [->|K]; [congruence | contradiction].
Qed.

Lemma mentions_existsb (words : list str) (item : str) :
  existsb (fun word => contains word (lower item)) words = true
  <-> mentions words item.
Proof. unfold mentions. now rewrite existsb_exists. Qed.

Lemma suggestion_title_spec (item : str) :
  (In DOT item ->
   exists rest, item = suggestion_title item ++ DOT :: rest
                /\ ~ In DOT (suggestion_title item))
  /\ (~ In DOT item -> suggestion_title item = firstn 50 item).
Proof.
  unfold suggestion_title. split.
  - intros H. rewrite (proj2 (contains_char DOT item) H).
    destruct (first_occurrence DOT item H) as (before & after & -> & Hb).
    rewrite split_head by exact Hb. now exists after.
  - intros H. destruct (contains [DOT] item) eqn:E; [|reflexivity].
    apply contains_char in E. contradiction.
Qed.

Lemma suggestion_priority_spec (item : str) :
  (mentions high_words item -> suggestion_priority item = HIGH)
  /\ (~ mentions high_words item -> mentions low_words item ->
      suggestion_priority item = LOW)
  /\ (~ mentions high_words item -> ~ mentions low_words item ->
      suggestion_priority item = MEDIUM).
Proof.
  unfold suggestion_priority.
  rewrite <- !mentions_existsb.
  destruct (existsb _ high_words), (existsb _ low_words); intuition congruence.
Qed.

(** C5: the suggestions follow the extracted items one to one and in
    order; the n-th (counted from 1) is named [suggestion-n], described by
    the whole item, titled by the text before the first full stop or, when
    there is none, by the first 50 code points, and ranked High when the
    lowered item contains [urgent], [critical] or [important], else Low
    when it contains [minor], [optional] or [consider], else Medium; High
    wins over Low when words of both kinds occur.  The example item is
    titled [Add input validation] and ranked Medium; one item for each of
    the six words, an item with words of both kinds and an item with none
    are ranked accordingly. *)
Theorem C5_suggestions_follow_items
        (dec : codepoint -> bool) (content : str) :
  let items := _extract_list_items dec content in
  let out := _parse_suggestions dec content in
  List.length out = List.length items
  /\ (forall n item,
         nth_error items n = Some item ->
         exists s,
           nth_error out n = Some s
           /\ Suggestion.id s = py "suggestion-" ++ of_int (Z.of_nat n + 1)
           /\ Suggestion.description s = item
           /\ (In DOT item ->
               exists rest, item = Suggestion.title s ++ DOT :: rest
                            /\ ~ In DOT (Suggestion.title s))
           /\ (~ In DOT item -> Suggestion.title s = firstn 50 item)
           /\ (mentions [py "urgent"; py "critical"; py "important"] item ->
               Suggestion.priority s = HIGH)
           /\ (~ mentions [py "urgent"; py "critical"; py "important"] item ->
               mentions [py "minor"; py "optional"; py "consider"] item ->
               Suggestion.priority s = LOW)
           /\ (~ mentions [py "urgent"; py "critical"; py "important"] item ->
               ~ mentions [py "minor"; py "optional"; py "consider"] item ->
               Suggestion.priority s = MEDIUM)
           /\ Suggestion.files s = []
           /\ Suggestion.completed s = false
           /\ Suggestion.example s = None)
  /\ _parse_suggestions dec (py "- " ++ validation_item)
     = [Suggestion.mk (py "suggestion-1") (py "Add input validation")
                      validation_item [] MEDIUM false None]
  /\ map Suggestion.priority
         (_parse_suggestions dec
            (py "- Urgent: rotate the leaked key" ++ [LF]
             ++ py "- Fix the CRITICAL path first" ++ [LF]
             ++ py "- It is Important to pin versions" ++ [LF]
             ++ py "- Minor: rename tmp" ++ [LF]
             ++ py "- Optional type hints" ++ [LF]
             ++ py "- Consider caching the result" ++ [LF]
             ++ py "- Optional but urgent: add a timeout" ++ [LF]
             ++ py "- Rename the helper"))
     = [HIGH; HIGH; HIGH; LOW; LOW; LOW; HIGH; MEDIUM].
Proof.
  intros items out.
  assert (E : out = map (fun e => Suggestion.make
                           (py "suggestion-" ++ of_int (Z.of_nat (fst e) + 1))
                           (suggestion_title (snd e)) (snd e)
                           (suggestion_priority (snd e)))
                        (enumerate items)).
  { unfold out, _parse_suggestions, suggestions_of_items. fold items.
    now rewrite suggestion_loop. }
  split; [|split; [|split]].
  - now rewrite E, length_map, enumerate_length.
  - intros n item Hn.
    exists (Suggestion.make (py "suggestion-" ++ of_int (Z.of_nat n + 1))
                            (suggestion_title item) item
                            (suggestion_priority item)).
    split.
    { rewrite E, nth_error_map. unfold enumerate.
      now rewrite (enumerate_nth items 0 n item Hn). }
    destruct (suggestion_title_spec item) as [T1 T2].
    destruct (suggestion_priority_spec item) as (P1 & P2 & P3).
    cbn [Suggestion.make Suggestion.id Suggestion.description
         Suggestion.title Suggestion.priority Suggestion.files
         Suggestion.completed Suggestion.example].
    split; [reflexivity|]. split; [reflexivity|].
    split; [exact T1|]. split; [exact T2|].
    split; [exact P1|]. split; [exact P2|]. split; [exact P3|].
    split; [reflexivity|]. split; reflexivity.
  - reflexivity.
  - reflexivity.
Qed.

Example high_precedes_low :
  suggestion_priority (py "Optional but URGENT: rotate the key") = HIGH.
Proof. reflexivity. Qed.

Example long_item_title :
  suggestion_title
    (py "Split the request handler into smaller functions with one task each")
  = py "Split the request handler into smaller functions w".
Proof. reflexivity. Qed.

End SuggestionFacts.

(* ===================================================================== *)
(** * Further properties of the DiffNormalizer *)
(* ===================================================================== *)

Section GitManagerMore.

Import GitManager.

Lemma count_loop (lines : list str) :
  forall a d,
    (a <= fst (fold_left count_line lines (a, d))
     /\ d <= snd (fold_left count_line lines (a, d))
     /\ fst (fold_left count_line lines (a, d))
        + snd (fold_left count_line lines (a, d))
        <= a + d + Z.of_nat (List.length lines))%Z.
Proof.
  induction lines as [|l lines IH]; intros a d.
  - simpl. lia.
  - cbn [fold_left List.length]. unfold count_line at 2 4 6 8.
    destruct (startswith (py "+") l && negb (startswith (py "+++") l)).
    + specialize (IH (a + 1)%Z d). lia.
    + destruct (startswith (py "-") l && negb (startswith (py "---") l)).
      * specialize (IH a (d + 1)%Z). lia.
      * specialize (IH a d). lia.
Qed.

Lemma count_changes_bounds (patch : option str) :
  (0 <= fst (count_changes patch)
   /\ 0 <= snd (count_changes patch)
   /\ fst (count_changes patch) + snd (count_changes patch)
      <= Z.of_nat (patch_lines patch))%Z.
Proof.
  unfold count_changes, patch_lines. destruct patch as [p|]; simpl; [|lia].
  destruct (truthy p); simpl; [|lia].
  generalize (count_loop (split LF p) 0 0). lia.
Qed.

(** When [_process_single_diff] yields a file, and which one. *)
Lemma process_single_diff_spec (d : RawDiff.t) (f : FileChange.t) :
  _process_single_diff d = Some f
  <-> exists p st,
      usable_path d p /\ flags_status d st
      /\ f = FileChange.mk p st
               (fst (count_changes (get_patch (RawDiff.diff d))))
               (snd (count_changes (get_patch (RawDiff.diff d))))
               (get_patch (RawDiff.diff d)).
Proof.
  unfold _process_single_diff, process_single_diff_body, usable_path,
    flags_status.
  destruct d as [ap bp nf df rf blob]. simpl.
  destruct (count_changes (get_patch blob)) as [adds dels] eqn:C. simpl.
  split.
  - destruct bp as [[[|c b]|]|e]; simpl; try discriminate;
      try (destruct ap as [[[|c a]|]|e']; simpl; try discriminate);
      destruct nf as [[|]|e1]; simpl; try discriminate;
      try (destruct df as [[|]|e2]; simpl; try discriminate);
      try (destruct rf as [[|]|e3]; simpl; try discriminate);
      intros [= <-]; eexists; eexists;
      (refine (conj _ (conj _ eq_refl));
       [ split;
         [ discriminate
         | first [ left; reflexivity
                 | right; eexists; split; [reflexivity|split; reflexivity] ] ]
       | repeat (first [ left; repeat split; reflexivity | right ]);
         repeat split; reflexivity ]).
  - intros (p & st & [Hp Hpath] & Hst & ->).
    destruct Hpath as [->|(b & -> & Hb & ->)]; simpl.
    + destruct p as [|c p]; [congruence|]. simpl.
      destruct Hst as [[-> ->]|[(-> & -> & ->)|[(-> & -> & -> & ->)
                                               |(-> & -> & -> & ->)]]];
        reflexivity.
    + rewrite Hb. simpl.
      destruct p as [|c p]; [congruence|]. simpl.
      destruct Hst as [[-> ->]|[(-> & -> & ->)|[(-> & -> & -> & ->)
                                               |(-> & -> & -> & ->)]]];
        reflexivity.
Qed.

(** X1: [_process_single_diff] yields a file exactly when a non-empty path
    can be read (the post-change path, else the pre-change path) and the
    flags can be read as far as the first one set; the file carries that
    path, the status of the first flag set (Modified when none is), the
    decoded patch if there is one and its line counts. *)
Theorem X1_file_produced_iff (d : RawDiff.t) (f : FileChange.t) :
  _process_single_diff d = Some f
  <-> exists p st,
      usable_path d p /\ flags_status d st
      /\ f = FileChange.mk p st
               (fst (count_changes (get_patch (RawDiff.diff d))))
               (snd (count_changes (get_patch (RawDiff.diff d))))
               (get_patch (RawDiff.diff d)).
Proof.
  split; intros H.
  - now apply (proj1 (process_single_diff_spec d f)).
  - now apply (proj2 (process_single_diff_spec d f)).
Qed.

(** X2: the counts of a produced file are never negative and together never
    exceed the number of lines of its patch; without a patch both are 0. *)
Theorem X2_counts_bounded (d : RawDiff.t) (f : FileChange.t) :
  _process_single_diff d = Some f ->
  (0 <= FileChange.additions f)%Z
  /\ (0 <= FileChange.deletions f)%Z
  /\ (FileChange.additions f + FileChange.deletions f
      <= Z.of_nat (patch_lines (FileChange.patch f)))%Z
  /\ (FileChange.patch f = None ->
      FileChange.additions f = 0%Z /\ FileChange.deletions f = 0%Z).
Proof.
  intros H. apply process_single_diff_spec in H.
  destruct H as (p & st & _ & _ & ->). simpl.
  generalize (count_changes_bounds (get_patch (RawDiff.diff d))).
  intros (A & B & C).
  split; [exact A|]. split; [exact B|]. split; [exact C|].
  intros E. rewrite E. now split.
Qed.

Lemma X2_counts_bounded_witness :
  (0 <= FileChange.additions file_a)%Z
  /\ (0 <= FileChange.deletions file_a)%Z
  /\ (FileChange.additions file_a + FileChange.deletions file_a
      <= Z.of_nat (patch_lines (FileChange.patch file_a)))%Z
  /\ (FileChange.patch file_a = None ->
      FileChange.additions file_a = 0%Z /\ FileChange.deletions file_a = 0%Z).
Proof.
  apply (X2_counts_bounded raw_a file_a). reflexivity.
Defined.

(** X3: a set [new_file] flag decides the status: the file is Added
    whatever the other two flags hold, even when reading them would raise;
    likewise a set [deleted_file] flag wins over [renamed_file]. *)
Theorem X3_new_file_wins (d : RawDiff.t) (p : str) :
  usable_path d p ->
  (RawDiff.new_file d = Value true ->
   exists f, _process_single_diff d = Some f
             /\ FileChange.status f = ADDED /\ FileChange.path f = p)
  /\ (RawDiff.new_file d = Value false ->
      RawDiff.deleted_file d = Value true ->
      exists f, _process_single_diff d = Some f
                /\ FileChange.status f = DELETED /\ FileChange.path f = p).
Proof.
  intros Hp. split.
  - intros Hn. eexists. split.
    + apply process_single_diff_spec. exists p, ADDED.
      split; [exact Hp|]. split; [left; now split | reflexivity].
    + now split.
  - intros Hn Hd. eexists. split.
    + apply process_single_diff_spec. exists p, DELETED.
      split; [exact Hp|]. split; [right; left; now repeat split | reflexivity].
    + now split.
Qed.

Lemma X3_new_file_wins_witness :
  (RawDiff.new_file raw_new_unreadable = Value true ->
   exists f, _process_single_diff raw_new_unreadable = Some f
             /\ FileChange.status f = ADDED /\ FileChange.path f = py "n.py")
  /\ (RawDiff.new_file raw_new_unreadable = Value false ->
      RawDiff.deleted_file raw_new_unreadable = Value true ->
      exists f, _process_single_diff raw_new_unreadable = Some f
                /\ FileChange.status f = DELETED
                /\ FileChange.path f = py "n.py").
Proof.
  apply (X3_new_file_wins raw_new_unreadable (py "n.py")).
  split; [discriminate|].
  right. exists None. repeat split.
Defined.

(** X4: a patch that cannot be turned into text never costs the file: when
    [diff.diff] is absent, [None], empty, a [str] or bytes that are not
    UTF-8, the file is still produced, with no patch and both counts 0. *)
Theorem X4_undecodable_patch_keeps_file
        (d : RawDiff.t) (p : str) (st : FileStatus) :
  usable_path d p -> flags_status d st -> no_text (RawDiff.diff d) ->
  _process_single_diff d = Some (FileChange.mk p st 0 0 None).
Proof.
  intros Hp Hst Hn. apply process_single_diff_spec. exists p, st.
  split; [exact Hp|]. split; [exact Hst|].
  assert (E : get_patch (RawDiff.diff d) = None).
  { destruct (RawDiff.diff d) as [| |[|b bs]|]; try reflexivity.
    simpl in Hn. destruct Hn as [Hn|Hn]; [discriminate | exact Hn]. }
  now rewrite E.
Qed.

Lemma X4_undecodable_patch_keeps_file_witness :
  _process_single_diff raw_deleted_binary
  = Some (FileChange.mk (py "old.bin") DELETED 0 0 None).
Proof.
  apply (X4_undecodable_patch_keeps_file raw_deleted_binary).
  - split; [discriminate|]. right. exists None. repeat split.
  - right. left. repeat split.
  - right. reflexivity.
Defined.

(** X5: a non-empty commit hash selects the commit scope whether or not
    [staged] is set; an empty hash counts as none.  A hash the repository
    cannot resolve surfaces as [Failed to get git diff: Invalid commit hash:
    <hash>: <cause>]; a resolved commit gives the diff against its first
    parent (against [None] for a root commit) with the stripped commit
    message. *)
Theorem X5_commit_scope (repo : Repo.t) (staged : bool) (h : str) :
  h <> [] ->
  get_diff repo staged (Some h) = get_diff repo (negb staged) (Some h)
  /\ get_diff repo staged (Some []) = get_diff repo staged None
  /\ (forall e, Repo.commit repo h = Raise e ->
                get_diff repo staged (Some h)
                = Raise (py "Failed to get git diff: Invalid commit hash: "
                         ++ h ++ py ": " ++ e))
  /\ (forall c, Repo.commit repo h = Ok c ->
                exists diff,
                  get_diff repo staged (Some h) = Ok diff
                  /\ GitDiff.commit_message diff
                     = Some (strip (Commit.message c))
                  /\ GitDiff.files diff
                     = produced (match Commit.diff_parent c with
                                 | Some ds => ds
                                 | None => Commit.diff_None c
                                 end)).
Proof.
  intros Hh. destruct h as [|c0 h]; [congruence|].
  unfold get_diff. simpl. repeat split.
  - intros e He. unfold _get_commit_diff. rewrite He. simpl.
    reflexivity.
  - intros c Hc. unfold _get_commit_diff. rewrite Hc. simpl.
    eexists. split; [reflexivity|].
    rewrite process_diffs_eq. now split.
Qed.

Lemma X5_commit_scope_witness :
  get_diff root_commit_repo true (Some (py "abc"))
  = get_diff root_commit_repo (negb true) (Some (py "abc"))
  /\ get_diff root_commit_repo true (Some [])
     = get_diff root_commit_repo true None
  /\ (forall e, Repo.commit root_commit_repo (py "abc") = Raise e ->
                get_diff root_commit_repo true (Some (py "abc"))
                = Raise (py "Failed to get git diff: Invalid commit hash: "
                         ++ py "abc" ++ py ": " ++ e))
  /\ (forall c, Repo.commit root_commit_repo (py "abc") = Ok c ->
                exists diff,
                  get_diff root_commit_repo true (Some (py "abc")) = Ok diff
                  /\ GitDiff.commit_message diff
                     = Some (strip (Commit.message c))
                  /\ GitDiff.files diff
                     = produced (match Commit.diff_parent c with
                                 | Some ds => ds
                                 | None => Commit.diff_None c
                                 end)).
Proof.
  apply (X5_commit_scope root_commit_repo true (py "abc")). discriminate.
Defined.

Example unknown_commit_message :
  get_diff root_commit_repo false (Some (py "zzz"))
  = Raise (py "Failed to get git diff: Invalid commit hash: zzz: bad revision").
Proof. reflexivity. Qed.

Example root_commit_diff :
  get_diff root_commit_repo true (Some (py "abc"))
  = Ok (_process_diffs [raw_a] (Some (py "first commit")) (py "unknown")).
Proof. reflexivity. Qed.

(** X6: the working-tree diff adds up: its stats are the sums of the stats
    of the staged diff and of the diff of the unstaged changes, so a path
    present in both is counted twice. *)
Theorem X6_working_stats_add_up
        (repo : Repo.t) (staged unstaged : list RawDiff.t) :
  Repo.index_diff_HEAD repo = Ok staged ->
  Repo.index_diff_None repo = Ok unstaged ->
  exists w s,
    get_diff repo false None = Ok w
    /\ get_diff repo true None = Ok s
    /\ let u := _process_diffs unstaged None (get_current_branch repo) in
       GitStats.files_changed (GitDiff.stats w)
       = (GitStats.files_changed (GitDiff.stats s)
          + GitStats.files_changed (GitDiff.stats u))%Z
       /\ GitStats.insertions (GitDiff.stats w)
          = (GitStats.insertions (GitDiff.stats s)
             + GitStats.insertions (GitDiff.stats u))%Z
       /\ GitStats.deletions (GitDiff.stats w)
          = (GitStats.deletions (GitDiff.stats s)
             + GitStats.deletions (GitDiff.stats u))%Z.
Proof.
  intros Hs Hu.
  exists (_process_diffs (staged ++ unstaged) None (get_current_branch repo)),
         (_process_diffs staged None (get_current_branch repo)).
  split; [|split].
  - unfold get_diff, _get_working_diff. simpl. now rewrite Hs, Hu.
  - unfold get_diff, _get_staged_diff. simpl. now rewrite Hs.
  - cbv zeta. rewrite !process_diffs_eq. simpl.
    rewrite produced_app, length_app, !sumZ_app. repeat split. lia.
Qed.

Lemma X6_working_stats_add_up_witness :
  exists w s,
    get_diff sample_repo false None = Ok w
    /\ get_diff sample_repo true None = Ok s
    /\ let u := _process_diffs [raw_a_unstaged] None
                  (get_current_branch sample_repo) in
       GitStats.files_changed (GitDiff.stats w)
       = (GitStats.files_changed (GitDiff.stats s)
          + GitStats.files_changed (GitDiff.stats u))%Z
       /\ GitStats.insertions (GitDiff.stats w)
          = (GitStats.insertions (GitDiff.stats s)
             + GitStats.insertions (GitDiff.stats u))%Z
       /\ GitStats.deletions (GitDiff.stats w)
          = (GitStats.deletions (GitDiff.stats s)
             + GitStats.deletions (GitDiff.stats u))%Z.
Proof.
  apply (X6_working_stats_add_up sample_repo [raw_a; raw_b] [raw_a_unstaged]);
    reflexivity.
Defined.

End GitManagerMore.

(* ===================================================================== *)
(** * Further properties of the FileFilter *)
(* ===================================================================== *)

Section FileFilterMore.

Import ReviewManager.

Lemma filter_firstn_filter {A : Type} (p : A -> bool) (l : list A) :
  forall n, filter p (firstn n (filter p l)) = firstn n (filter p l).
Proof.
  induction l as [|a l IH]; intros n; simpl.
  - now rewrite firstn_nil.
  - destruct (p a) eqn:E; [|apply IH].
    destruct n as [|n]; simpl; [reflexivity|].
    now rewrite E, IH.
Qed.

Lemma filter_filter_same {A : Type} (p : A -> bool) (l : list A) :
  filter p (filter p l) = filter p l.
Proof.
  induction l as [|a l IH]; simpl; [reflexivity|].
  destruct (p a) eqn:E; simpl; [now rewrite E, IH | exact IH].
Qed.

(** X7: filtering is idempotent: a diff that went through [_filter_files]
    comes out of a second pass unchanged, and the second pass prints no
    warning. *)
Theorem X7_filter_idempotent
        (fnmatch : str -> str -> bool) (git_diff : GitDiff.t)
        (config : ReviewConfig.t) :
  (0 < ReviewConfig.max_files_per_review config)%Z ->
  _filter_files fnmatch (fst (_filter_files fnmatch git_diff config)) config
  = (fst (_filter_files fnmatch git_diff config), []).
Proof.
  intros Hpos.
  rewrite (filter_files_files fnmatch config git_diff). cbv zeta.
  set (kept := filter (passes fnmatch config) (GitDiff.files git_diff)).
  set (limit := ReviewConfig.max_files_per_review config) in *.
  destruct (limit <? Z.of_nat (List.length kept))%Z eqn:L; simpl;
    rewrite filter_files_files; cbv zeta; simpl; fold limit.
  - unfold slice_to.
    assert (P : (0 <=? limit)%Z = true) by (apply Z.leb_le; lia).
    rewrite P. unfold kept. rewrite filter_firstn_filter. fold kept.
    assert (S : (limit <? Z.of_nat (List.length (firstn (Z.to_nat limit) kept)))%Z
                = false).
    { apply Z.ltb_ge. rewrite length_firstn. lia. }
    now rewrite S.
  - unfold kept. rewrite filter_filter_same. fold kept. now rewrite L.
Qed.

Lemma X7_filter_idempotent_witness :
  _filter_files literal_match
                (fst (_filter_files literal_match sample_diff tight_config))
                tight_config
  = (fst (_filter_files literal_match sample_diff tight_config), []).
Proof.
  apply (X7_filter_idempotent literal_match sample_diff tight_config).
  reflexivity.
Defined.

Lemma format_file_app (acc : list str) (f : FileChange.t) :
  GitManager.format_file acc f = acc ++ GitManager.format_file [] f.
Proof.
  unfold GitManager.format_file.
  destruct (GitManager.opt_truthy (FileChange.patch f)); simpl;
    now rewrite <- !app_assoc.
Qed.

Lemma format_loop (files : list FileChange.t) :
  forall acc,
    fold_left GitManager.format_file files acc
    = acc ++ flat_map (GitManager.format_file []) files.
Proof.
  induction files as [|f files IH]; intros acc; simpl.
  - now rewrite app_nil_r.
  - rewrite IH, format_file_app, <- app_assoc. reflexivity.
Qed.

Lemma heading_in_block (f : FileChange.t) :
  In (file_heading f) (GitManager.format_file [] f).
Proof.
  unfold GitManager.format_file, file_heading.
  destruct (GitManager.opt_truthy (FileChange.patch f)); simpl; now left.
Qed.

Lemma startswith_app (x b : str) : startswith x (x ++ b) = true.
Proof.
  induction x as [|c x IH]; simpl; [reflexivity|].
  now rewrite N.eqb_refl, IH.
Qed.

Lemma contains_startswith (x s : str) :
  startswith x s = true -> contains x s = true.
Proof.
  destruct s; simpl; [easy|]. intros ->. reflexivity.
Qed.

Lemma contains_app_r (x a y : str) :
  contains x y = true -> contains x (a ++ y) = true.
Proof.
  intros H. induction a as [|c a IH]; simpl; [exact H|].
  rewrite IH. apply orb_true_r.
Qed.

Lemma join_contains (sep l : str) (lines : list str) :
  In l lines -> contains l (join sep lines) = true.
Proof.
  induction lines as [|p ps IH]; intros H; [destruct H|].
  destruct H as [->|H].
  - destruct ps; simpl.
    + apply contains_startswith. rewrite <- (app_nil_r l) at 2.
      apply startswith_app.
    + apply contains_startswith, startswith_app.
  - destruct ps as [|q ps]; [destruct H|].
    change (join sep (p :: q :: ps)) with (p ++ sep ++ join sep (q :: ps)).
    apply contains_app_r, contains_app_r. now apply IH.
Qed.

(** X8: the text [run_review] prepares for the provider is rendered from
    the diff as acquired, before the filter: whatever the patterns and the
    cap, it holds the heading of every changed file, the ones the filter
    drops included. *)
Theorem X8_code_diff_is_unfiltered
        (fnmatch : str -> str -> bool) (git_diff filtered : GitDiff.t)
        (config : ReviewConfig.t) (code_diff : str) (printed : list str) :
  run_review_prepare fnmatch git_diff config
  = Ok (code_diff, filtered, printed) ->
  code_diff = GitManager.format_diff_for_review git_diff
  /\ filtered = fst (_filter_files fnmatch git_diff config)
  /\ forall f, In f (GitDiff.files git_diff) ->
               contains (file_heading f) code_diff = true.
Proof.
  unfold run_review_prepare.
  destruct (is_empty (GitDiff.files git_diff)); [discriminate|].
  destruct (_filter_files fnmatch git_diff config) as [fd pr]. simpl.
  destruct (is_empty (GitDiff.files fd)); [discriminate|].
  intros [= <- <- <-]. split; [reflexivity|]. split; [reflexivity|].
  intros f Hf. unfold GitManager.format_diff_for_review.
  apply join_contains. rewrite format_loop. simpl.
  apply in_flat_map. exists f. split; [exact Hf | apply heading_in_block].
Qed.

Lemma X8_code_diff_is_unfiltered_witness :
  GitManager.format_diff_for_review sample_diff
  = GitManager.format_diff_for_review sample_diff
  /\ fst (_filter_files literal_match sample_diff sample_config)
     = fst (_filter_files literal_match sample_diff sample_config)
  /\ forall f, In f (GitDiff.files sample_diff) ->
               contains (file_heading f)
                        (GitManager.format_diff_for_review sample_diff)
               = true.
Proof.
  apply (X8_code_diff_is_unfiltered
           literal_match sample_diff
           (fst (_filter_files literal_match sample_diff sample_config))
           sample_config
           (GitManager.format_diff_for_review sample_diff) []).
  reflexivity.
Defined.

(** [b.log] is excluded from the filtered diff and still in the text. *)
Example excluded_file_still_rendered :
  map FileChange.path
      (GitDiff.files (fst (_filter_files literal_match sample_diff sample_config)))
  = [py "a.py"]
  /\ contains (py "## b.log (modified)")
              (GitManager.format_diff_for_review sample_diff) = true.
Proof. split; reflexivity. Qed.

Example rendered_patchless_file :
  GitManager.format_diff_for_review
    (GitDiff.mk [FileChange.mk (py "old.bin") DELETED 0 0 None]
                (GitStats.mk 1 0 0) None None)
  = py "## old.bin (deleted)" ++ [LF] ++ py "**+0 -0**" ++ [LF].
Proof. reflexivity. Qed.

End FileFilterMore.

(* ===================================================================== *)
(** * Further properties of the ResponseInterpreter *)
(* ===================================================================== *)

Section StripFacts.

Lemma lstrip_split (s : str) :
  exists ws, s = ws ++ lstrip s /\ forallb isspace ws = true.
Proof.
  induction s as [|c s IH]; simpl.
  - now exists [].
  - destruct (isspace c) eqn:E.
    + destruct IH as (ws & Hs & Hw). exists (c :: ws). simpl.
      rewrite E, Hw. split; [now f_equal | reflexivity].
    + now exists [].
Qed.

Lemma lstrip_no_lead (s : str) : no_lead (lstrip s).
Proof.
  induction s as [|c s IH]; simpl; [exact I|].
  destruct (isspace c) eqn:E; [exact IH | exact E].
Qed.

Lemma lstrip_id (s : str) : no_lead s -> lstrip s = s.
Proof.
  destruct s as [|c s]; simpl; [reflexivity|]. now intros ->.
Qed.

Lemma no_trail_suffix (p x : str) : no_trail (p ++ x) -> no_trail x.
Proof.
  unfold no_trail. rewrite rev_app_distr.
  destruct (rev x); simpl; [easy | easy].
Qed.

Lemma rstrip_split (s : str) : exists ws, s = rstrip s ++ ws.
Proof.
  unfold rstrip. destruct (lstrip_split (rev s)) as (ws & H & _).
  exists (rev ws). rewrite <- rev_app_distr, <- H. now rewrite rev_involutive.
Qed.

Lemma strip_no_trail (s : str) : no_trail (strip s).
Proof.
  unfold no_trail, strip, rstrip. rewrite rev_involutive.
  apply lstrip_no_lead.
Qed.

Lemma strip_no_lead (s : str) : no_lead (strip s).
Proof.
  unfold strip. destruct (rstrip_split (lstrip s)) as (ws & H).
  generalize (lstrip_no_lead s). rewrite H at 1.
  destruct (rstrip (lstrip s)); simpl; easy.
Qed.

Lemma stripped_iff (s : str) : strip s = s <-> no_lead s /\ no_trail s.
Proof.
  split.
  - intros <-. split; [apply strip_no_lead | apply strip_no_trail].
  - intros [L T]. unfold strip, rstrip. rewrite (lstrip_id s L).
    unfold no_trail in T. rewrite (lstrip_id _ T). apply rev_involutive.
Qed.

Lemma strip_idempotent (s : str) : strip (strip s) = strip s.
Proof.
  apply stripped_iff. split; [apply strip_no_lead | apply strip_no_trail].
Qed.

Lemma lstrip_In (c : codepoint) (s : str) : In c (lstrip s) -> In c s.
Proof.
  destruct (lstrip_split s) as (ws & H & _). intros Hc.
  rewrite H. apply in_or_app. now right.
Qed.

Lemma strip_In (c : codepoint) (s : str) : In c (strip s) -> In c s.
Proof.
  unfold strip, rstrip. intros H.
  apply in_rev in H. apply lstrip_In in H. apply in_rev in H.
  now apply lstrip_In.
Qed.

Lemma join_split (sep : codepoint) (s : str) : join [sep] (split sep s) = s.
Proof.
  induction s as [|c s IH]; simpl; [reflexivity|].
  destruct (N.eqb_spec c sep) as [->|Hne].
  - destruct (split sep s) as [|w ws] eqn:E; [now apply split_nonempty in E|].
    change (join [sep] ([] :: w :: ws)) with ([sep] ++ join [sep] (w :: ws)).
    now rewrite IH.
  - destruct (split sep s) as [|w ws] eqn:E; [now apply split_nonempty in E|].
    destruct ws as [|w' ws]; simpl in *; now rewrite <- IH.
Qed.

Lemma split_no_sep (sep : codepoint) (s : str) :
  forall l, In l (split sep s) -> ~ In sep l.
Proof.
  induction s as [|c s IH]; simpl; intros l H.
  - destruct H as [<-|[]]. intros [].
  - destruct (N.eqb_spec c sep) as [->|Hne].
    + destruct H as [<-|H]; [intros [] | now apply IH].
    + destruct (split sep s) as [|w ws] eqn:E;
        [now apply split_nonempty in E|].
      destruct H as [<-|H].
      * intros [K|K]; [congruence|]. apply (IH w); [now left | exact K].
      * apply IH. now right.
Qed.

End StripFacts.

Section SectionSplittingMore.

Import BaseAIProvider.

Lemma split_loop_plain (lines : list str) :
  (forall l, In l lines -> header_match l = None) ->
  forall sections title buffer,
    fold_left split_step lines (sections, title, buffer)
    = (sections, title, buffer ++ lines).
Proof.
  induction lines as [|l lines IH]; intros H sections title buffer; simpl.
  - now rewrite app_nil_r.
  - rewrite (H l (or_introl eq_refl)).
    rewrite IH by (intros l' Hl'; apply H; now right).
    now rewrite <- app_assoc.
Qed.

Lemma heading_free_sections (response : str) :
  heading_free response ->
  _split_into_sections response = [(py "general", response)].
Proof.
  intros H. unfold _split_into_sections.
  rewrite (split_loop_plain (split LF response) H).
  generalize (split_nonempty LF response) (join_split LF response).
  destruct (split LF response) as [|w ws]; intros N J; [congruence|].
  unfold flush. simpl app. cbn [nonempty dict_set]. now rewrite J.
Qed.

(** X9: a response without any heading line is one section: the mapping
    holds the single title [general], and under it the whole response,
    unchanged (the empty response included). *)
Theorem X9_no_heading_one_section (response : str) :
  heading_free response ->
  _split_into_sections response = [(py "general", response)]
  /\ dict_get (_split_into_sections response) (py "general") = Some response.
Proof.
  intros H. rewrite (heading_free_sections response H). now split.
Qed.

Lemma X9_no_heading_one_section_witness :
  _split_into_sections (py "Looks good to me." ++ [LF] ++ py "#hashtag")
  = [(py "general", py "Looks good to me." ++ [LF] ++ py "#hashtag")]
  /\ dict_get (_split_into_sections
                 (py "Looks good to me." ++ [LF] ++ py "#hashtag"))
              (py "general")
     = Some (py "Looks good to me." ++ [LF] ++ py "#hashtag").
Proof.
  apply (X9_no_heading_one_section
           (py "Looks good to me." ++ [LF] ++ py "#hashtag")).
  intros line [<-|[<-|[]]]; reflexivity.
Defined.

(** X10: from a response without any heading line the base provider
    extracts nothing: the result has the empty summary and no strengths,
    issues or suggestions, and keeps the response in [raw_response]. *)
Theorem X10_no_heading_nothing_extracted
        (dec : codepoint -> bool) (now : Datetime.t)
        (response provider model : str) :
  heading_free response ->
  parse_review_response (base dec) now response provider model
  = ReviewResult.make now provider model (Some response).
Proof.
  intros H. unfold parse_review_response, try_parse. simpl.
  now rewrite (heading_free_sections response H).
Qed.

Lemma X10_no_heading_nothing_extracted_witness :
  parse_review_response (base (fun _ => false)) sample_now
    (py "critical: everything is broken" ++ [LF] ++ py "- fix it")
    (py "claude") (py "sonnet")
  = ReviewResult.make sample_now (py "claude") (py "sonnet")
      (Some (py "critical: everything is broken" ++ [LF] ++ py "- fix it")).
Proof.
  apply (X10_no_heading_nothing_extracted (fun _ => false) sample_now).
  intros line [<-|[<-|[]]]; reflexivity.
Defined.

Lemma dict_set_fresh (d : dict) (k v : str) :
  ~ In k (map fst d) -> dict_set d k v = d ++ [(k, v)].
Proof.
  induction d as [|[k0 v0] d IH]; simpl; intros H; [reflexivity|].
  destruct (eqb k0 k) eqn:E.
  - apply eqb_eq in E. subst k0. exfalso. apply H. now left.
  - rewrite IH; [reflexivity|]. intros K. apply H. now right.
Qed.

Lemma blocks_fold_distinct (blocks : list (str * list str)) :
  forall d,
    NoDup (map fst d
           ++ map fst (filter (fun b => nonempty (snd b)) blocks)) ->
    fold_left (fun d b => flush d (fst b) (snd b)) blocks d
    = d ++ map (fun b => (fst b, join [LF] (snd b)))
               (filter (fun b => nonempty (snd b)) blocks).
Proof.
  induction blocks as [|[t buf] blocks IH]; intros d H; simpl.
  - now rewrite app_nil_r.
  - unfold flush at 2. simpl in H. destruct (nonempty buf); simpl in *.
    + rewrite dict_set_fresh.
      * rewrite IH; [now rewrite <- app_assoc|].
        rewrite map_app, <- app_assoc. exact H.
      * intros K. apply NoDup_remove_2 in H. apply H.
        apply in_or_app. now left.
    + now apply IH.
Qed.

(** X11: when the blocks that hold lines have pairwise distinct titles,
    Stage A loses nothing: the mapping lists every such block, in the order
    of the response, each under its title with its lines joined. *)
Theorem X11_distinct_titles_keep_all (response : str) :
  NoDup (map fst (stored_blocks response)) ->
  _split_into_sections response
  = map (fun b => (fst b, join [LF] (snd b))) (stored_blocks response).
Proof.
  intros H. rewrite split_into_sections_blocks.
  now rewrite blocks_fold_distinct.
Qed.

Lemma X11_distinct_titles_keep_all_witness :
  _split_into_sections
    (py "intro" ++ [LF] ++ py "# A" ++ [LF] ++ py "foo" ++ [LF]
     ++ py "## B" ++ [LF] ++ py "bar" ++ [LF] ++ py "baz")
  = map (fun b => (fst b, join [LF] (snd b)))
        (stored_blocks
           (py "intro" ++ [LF] ++ py "# A" ++ [LF] ++ py "foo" ++ [LF]
            ++ py "## B" ++ [LF] ++ py "bar" ++ [LF] ++ py "baz")).
Proof.
  apply (X11_distinct_titles_keep_all
           (py "intro" ++ [LF] ++ py "# A" ++ [LF] ++ py "foo" ++ [LF]
            ++ py "## B" ++ [LF] ++ py "bar" ++ [LF] ++ py "baz")).
  vm_compute. repeat constructor; simpl; intuition discriminate.
Defined.

Example three_sections :
  _split_into_sections
    (py "intro" ++ [LF] ++ py "# A" ++ [LF] ++ py "foo" ++ [LF]
     ++ py "## B" ++ [LF] ++ py "bar" ++ [LF] ++ py "baz")
  = [(py "general", py "intro"); (py "A", py "foo");
     (py "B", py "bar" ++ [LF] ++ py "baz")].
Proof. reflexivity. Qed.

End SectionSplittingMore.

Section IssueParsingMore.

Import BaseAIProvider.

Lemma close_severities (issues : list Issue.t) (cur : option Issue.t) :
  map Issue.severity (close issues cur)
  = map Issue.severity issues
    ++ match cur with Some i => [Issue.severity i] | None => [] end.
Proof.
  destruct cur; simpl; [now rewrite map_app | now rewrite app_nil_r].
Qed.

Lemma issue_loop_severities (lines : list str) :
  forall issues cur,
    map Issue.severity
        (close (fst (fold_left issue_step lines (issues, cur)))
               (snd (fold_left issue_step lines (issues, cur))))
    = map Issue.severity (close issues cur)
      ++ flat_map (fun l => match severity_of_line (strip l) with
                            | Some sev => [sev]
                            | None => []
                            end) lines.
Proof.
  induction lines as [|l lines IH]; intros issues cur.
  - simpl. now rewrite app_nil_r.
  - cbn [fold_left flat_map]. unfold issue_step at 2 4.
    destruct (severity_of_line (strip l)) as [sev|].
    + rewrite IH. rewrite (close_severities (close issues cur)). simpl.
      now rewrite <- app_assoc.
    + destruct cur as [i|]; [|now rewrite IH].
      destruct (truthy (strip l)); rewrite IH; [|reflexivity].
      simpl. now rewrite !map_app.
Qed.

Lemma issue_loop_bare (lines : list str) :
  forall issues cur,
    Forall bare_issue (close issues cur) ->
    Forall bare_issue
           (close (fst (fold_left issue_step lines (issues, cur)))
                  (snd (fold_left issue_step lines (issues, cur)))).
Proof.
  induction lines as [|l lines IH]; intros issues cur H; [exact H|].
  cbn [fold_left]. unfold issue_step at 2 4.
  destruct (severity_of_line (strip l)) as [sev|].
  - apply IH. simpl. apply Forall_app. split; [exact H|].
    constructor; [now repeat split | constructor].
  - destruct cur as [i|]; [|now apply IH].
    destruct (truthy (strip l)); apply IH; [|exact H].
    simpl in *. apply Forall_app in H. destruct H as [H1 H2].
    apply Forall_app. split; [exact H1|].
    inversion H2 as [|? ? Hi _]; subst.
    constructor; [exact Hi | constructor].
Qed.

(** X12: [_parse_issues] yields one issue per line that announces a
    severity, in the order of the lines and with the severity announced; the
    other lines add no issue.  Every issue is of type [general] and has no
    file, line, suggestion or code example. *)
Theorem X12_one_issue_per_marker (content : str) :
  map Issue.severity (_parse_issues content) = marker_severities content
  /\ List.length (_parse_issues content)
     = List.length (marker_severities content)
  /\ Forall bare_issue (_parse_issues content).
Proof.
  assert (S : map Issue.severity (_parse_issues content)
              = marker_severities content).
  { unfold _parse_issues, marker_severities.
    generalize (issue_loop_severities (split LF content) [] None).
    destruct (fold_left issue_step (split LF content) ([], None)) as [iss cu].
    simpl. now intros ->. }
  split; [exact S|]. split.
  - now rewrite <- S, length_map.
  - unfold _parse_issues.
    generalize (issue_loop_bare (split LF content) [] None
                                (Forall_nil bare_issue)).
    now destruct (fold_left issue_step (split LF content) ([], None)).
Qed.

Lemma remove_matches_In (c : codepoint) (s : str) :
  forall k, In c (remove_matches k s) -> In c s.
Proof.
  induction s as [|a s IH]; intros k H; [exact H|].
  cbn [remove_matches] in H. destruct k as [|k].
  - destruct (severity_match (a :: s)) as [[|n]|].
    + destruct H as [->|H]; [now left | right; now apply (IH 0%nat)].
    + right. now apply (IH n).
    + destruct H as [->|H]; [now left | right; now apply (IH 0%nat)].
  - right. now apply (IH k).
Qed.

(** X13: the text [_clean_issue_text] returns has no white space at either
    end (stripping it again changes nothing) and holds none of the code
    points of the three severity literals. *)
Theorem X13_cleaned_text (text : str) :
  strip (_clean_issue_text text) = _clean_issue_text text
  /\ forall c, In c (_clean_issue_text text) ->
               in_class literal_class c = false.
Proof.
  unfold _clean_issue_text. split; [apply strip_idempotent|].
  intros c H. apply strip_In in H. apply remove_matches_In in H.
  apply filter_In in H. destruct H as [_ H].
  now apply negb_true_iff in H.
Qed.

Example cleaned_marker_line :
  _clean_issue_text (critical_literal ++ py " **Critical**:  buffer overrun ")
  = py "buffer overrun".
Proof. reflexivity. Qed.

End IssueParsingMore.

Section ListItemsMore.

Import BaseAIProvider.

Variable dec : codepoint -> bool.

Lemma span_app (p : codepoint -> bool) (s : str) :
  s = fst (span p s) ++ snd (span p s).
Proof.
  induction s as [|c s IH]; simpl; [reflexivity|].
  destruct (p c); [|reflexivity].
  destruct (span p s) as [a b]. simpl in *. now f_equal.
Qed.

Lemma bullet_match_suffix (line rest : str) :
  bullet_match line = Some rest ->
  (exists pre, line = pre ++ rest) /\ no_lead rest.
Proof.
  unfold bullet_match. destruct line as [|c [|w tl]]; try discriminate.
  destruct (in_class bullet_class c && isspace w); [|discriminate].
  intros [= <-]. split; [|exact (lstrip_no_lead (w :: tl))].
  destruct (lstrip_split (w :: tl)) as (ws & H & _).
  exists (c :: ws).
  change (c :: w :: tl = c :: (ws ++ lstrip (w :: tl))). now rewrite <- H.
Qed.

Lemma ordinal_match_suffix (line rest : str) :
  ordinal_match dec line = Some rest ->
  (exists pre, line = pre ++ rest) /\ no_lead rest.
Proof.
  unfold ordinal_match. generalize (span_app (isdecimal dec) line).
  destruct (span (isdecimal dec) line) as [digits tl]. simpl.
  intros Hl. destruct digits as [|d0 digits]; [discriminate|].
  destruct tl as [|d [|w tl]]; try discriminate.
  destruct (N.eqb d DOT && isspace w); [|discriminate].
  intros [= <-]. split; [|exact (lstrip_no_lead (w :: tl))].
  destruct (lstrip_split (w :: tl)) as (ws & H & _).
  exists ((d0 :: digits) ++ d :: ws). rewrite Hl, <- app_assoc.
  change ((d0 :: digits) ++ d :: w :: tl
          = (d0 :: digits) ++ d :: (ws ++ lstrip (w :: tl))).
  now rewrite <- H.
Qed.

Lemma remove_prefix_keeps (m : str -> option str) (s : str) :
  (forall r, m s = Some r -> (exists pre, s = pre ++ r) /\ no_lead r) ->
  no_lead s -> no_trail s ->
  no_lead (remove_prefix m s) /\ no_trail (remove_prefix m s)
  /\ forall c, In c (remove_prefix m s) -> In c s.
Proof.
  intros Hm L T. unfold remove_prefix. destruct (m s) as [r|]; [|now repeat split].
  destruct (Hm r eq_refl) as [[pre Hs] Hr]. split; [exact Hr|]. split.
  - rewrite Hs in T. now apply no_trail_suffix in T.
  - intros c Hc. rewrite Hs. apply in_or_app. now right.
Qed.

Lemma extract_step_keeps (items : list str) (l : str) :
  ~ In LF l ->
  Forall (fun item => item <> [] /\ strip item = item /\ ~ In LF item) items ->
  Forall (fun item => item <> [] /\ strip item = item /\ ~ In LF item)
         (extract_step dec items l)
  /\ (List.length (extract_step dec items l) <= S (List.length items))%nat.
Proof.
  intros Hl H. unfold extract_step.
  destruct (is_some (bullet_match (strip l))
            || is_some (ordinal_match dec (strip l))); [|split; [exact H|unfold str in *; lia]].
  destruct (remove_prefix_keeps bullet_match (strip l)
              (bullet_match_suffix (strip l))
              (strip_no_lead l) (strip_no_trail l)) as (L1 & T1 & I1).
  destruct (remove_prefix_keeps (ordinal_match dec)
              (remove_prefix bullet_match (strip l))
              (ordinal_match_suffix (remove_prefix bullet_match (strip l)))
              L1 T1) as (L2 & T2 & I2).
  destruct (truthy _) eqn:E; [|split; [exact H|unfold str in *; lia]].
  split; [|rewrite length_app; simpl; unfold str in *; lia].
  apply Forall_app. split; [exact H|]. constructor; [|constructor].
  split; [intros K; rewrite K in E; discriminate|]. split.
  - apply stripped_iff. now split.
  - intros K. apply Hl. apply strip_In. now apply I1, I2.
Qed.

Lemma extract_loop_keeps (lines : list str) :
  (forall l, In l lines -> ~ In LF l) ->
  forall items,
    Forall (fun item => item <> [] /\ strip item = item /\ ~ In LF item) items ->
    Forall (fun item => item <> [] /\ strip item = item /\ ~ In LF item)
           (fold_left (extract_step dec) lines items)
    /\ (List.length (fold_left (extract_step dec) lines items)
        <= List.length items + List.length lines)%nat.
Proof.
  induction lines as [|l lines IH]; intros Hl items H; simpl.
  - split; [exact H | unfold str in *; lia].
  - destruct (extract_step_keeps items l (Hl l (or_introl eq_refl)) H)
      as [F Len].
    destruct (IH (fun l' Hl' => Hl l' (or_intror Hl')) _ F) as [F' Len'].
    split; [exact F' | unfold str in *; lia].
Qed.

(** X14: every list item [_extract_list_items] returns is non-empty, has no
    white space at either end and holds no line feed; there is at most one
    item per line of the content. *)
Theorem X14_list_items_are_trimmed (content : str) :
  Forall (fun item => item <> [] /\ strip item = item /\ ~ In LF item)
         (_extract_list_items dec content)
  /\ (List.length (_extract_list_items dec content)
      <= List.length (split LF content))%nat.
Proof.
  unfold _extract_list_items.
  apply (extract_loop_keeps (split LF content) (split_no_sep LF content) []).
  constructor.
Qed.

End ListItemsMore.

Example list_items_example :
  BaseAIProvider._extract_list_items (fun _ => false)
    (py "Intro:" ++ [LF] ++ py "  - first  " ++ [LF] ++ py "2.   second"
     ++ [LF] ++ py "-not an item" ++ [LF] ++ py "* 3. third")
  = [py "first"; py "second"; py "third"].
Proof. reflexivity. Qed.

Section RolesMore.

Import BaseAIProvider.

Variable dec : codepoint -> bool.

Ltac settle_roles IH r' :=
  let A := fresh "A" in
  let B := fresh "B" in
  let C := fresh "C" in
  let D := fresh "D" in
  destruct (IH r') as (A & B & C & D); rewrite A, B, C, D;
  destruct (last_of_role SummaryRole _), (last_of_role StrengthsRole _),
    (last_of_role IssuesRole _), (last_of_role SuggestionsRole _);
  repeat split.

Lemma parse_sections_base_fields (items : dict) :
  forall r,
    ReviewResult.summary (fst (parse_sections (base dec) r items))
    = match last_of_role SummaryRole items with
      | Some c => strip c
      | None => ReviewResult.summary r
      end
    /\ ReviewResult.strengths (fst (parse_sections (base dec) r items))
       = match last_of_role StrengthsRole items with
         | Some c => _extract_list_items dec c
         | None => ReviewResult.strengths r
         end
    /\ ReviewResult.issues (fst (parse_sections (base dec) r items))
       = match last_of_role IssuesRole items with
         | Some c => _parse_issues c
         | None => ReviewResult.issues r
         end
    /\ ReviewResult.suggestions (fst (parse_sections (base dec) r items))
       = match last_of_role SuggestionsRole items with
         | Some c => _parse_suggestions dec c
         | None => ReviewResult.suggestions r
         end.
Proof.
  induction items as [|[t c] items IH]; intros r.
  - repeat split.
  - cbn [parse_sections last_of_role]. unfold role_of.
    destruct (contains (py "summary") (lower t)).
    { settle_roles IH (ReviewResult.set_summary r (strip c)). }
    destruct (contains (py "strength") (lower t)).
    { cbn [base Methods.extract_list_items].
      settle_roles IH (ReviewResult.set_strengths r (_extract_list_items dec c)). }
    destruct (contains (py "issue") (lower t)
              || contains (py "problem") (lower t)).
    { cbn [base Methods.parse_issues].
      settle_roles IH (ReviewResult.set_issues r (_parse_issues c)). }
    destruct (contains (py "suggestion") (lower t)
              || contains (py "improvement") (lower t)).
    { cbn [base Methods.parse_suggestions].
      settle_roles IH
        (ReviewResult.set_suggestions r (_parse_suggestions dec c)). }
    settle_roles IH r.
Qed.

(** X15: with the helpers of the base class, each field of the result comes
    from one section only: the last section of the mapping whose title has
    the field's role (a title is given the first role of the chain summary,
    strength, issue or problem, suggestion or improvement that it mentions).
    Sections of the same role are not merged, and a field without a section
    stays empty. *)
Theorem X15_last_section_of_a_role_wins
        (now : Datetime.t) (response provider model : str) :
  let sections := _split_into_sections response in
  let result := parse_review_response (base dec) now response provider model in
  ReviewResult.summary result
  = match last_of_role SummaryRole sections with
    | Some c => strip c
    | None => []
    end
  /\ ReviewResult.strengths result
     = match last_of_role StrengthsRole sections with
       | Some c => _extract_list_items dec c
       | None => []
       end
  /\ ReviewResult.issues result
     = match last_of_role IssuesRole sections with
       | Some c => _parse_issues c
       | None => []
       end
  /\ ReviewResult.suggestions result
     = match last_of_role SuggestionsRole sections with
       | Some c => _parse_suggestions dec c
       | None => []
       end.
Proof.
  intros sections result. unfold result, parse_review_response, try_parse.
  cbn [base Methods.split_into_sections]. fold sections.
  generalize (base_parse_sections_total dec sections
                (ReviewResult.make now provider model (Some response))).
  generalize (parse_sections_base_fields sections
                (ReviewResult.make now provider model (Some response))).
  destruct (parse_sections (base dec)
              (ReviewResult.make now provider model (Some response)) sections)
    as [r [e|]]; simpl; intros F T; [discriminate|exact F].
Qed.

End RolesMore.

(** The issues of the earlier section are replaced, not extended. *)
Example later_issue_section_replaces :
  map Issue.description
      (ReviewResult.issues
         (BaseAIProvider.parse_review_response
            (BaseAIProvider.base (fun _ => false)) sample_now
            two_issue_sections (py "claude") (py "sonnet")))
  = [py "typo"].
Proof. reflexivity. Qed.

Section SuggestionIdsMore.

Import BaseAIProvider.

Lemma of_ascii_inj (s t : string) : of_ascii s = of_ascii t -> s = t.
Proof.
  revert t. induction s as [|a s IH]; intros [|b t]; simpl;
    try discriminate; [reflexivity|].
  intros [= Hab Hst]. f_equal; [|now apply IH].
  rewrite <- (ascii_N_embedding a), <- (ascii_N_embedding b). now rewrite Hab.
Qed.

Lemma of_int_inj (a b : Z) : of_int a = of_int b -> a = b.
Proof.
  unfold of_int. intros H. apply of_ascii_inj in H.
  assert (P : forall z, NilZero.int_of_string
                          (NilZero.string_of_int (Z.to_int z))
                        = Some (Z.to_int z)).
  { intros z. apply NilZero.isi; destruct z; simpl; try discriminate;
      intros [= K]; now apply DecimalPos.Unsigned.to_uint_nonnil in K. }
  assert (E : Some (Z.to_int a) = Some (Z.to_int b))
    by (rewrite <- !P; now rewrite H).
  injection E as E.
  rewrite <- (DecimalZ.of_to a), <- (DecimalZ.of_to b). now rewrite E.
Qed.

Lemma NoDup_map_inj {A B : Type} (f : A -> B) (l : list A) :
  (forall x y, f x = f y -> x = y) -> NoDup l -> NoDup (map f l).
Proof.
  intros Hf H. induction H as [|x l Hx Hl IH]; simpl; constructor; [|exact IH].
  intros K. apply in_map_iff in K. destruct K as (y & Hy & Hin).
  apply Hf in Hy. now subst.
Qed.

Lemma enumerate_fst {A : Type} (l : list A) :
  forall k, map fst (combine (seq k (List.length l)) l) = seq k (List.length l).
Proof.
  induction l as [|a l IH]; intros k; simpl; [reflexivity|].
  now rewrite IH.
Qed.

(** X16: within one response the suggestion ids are pairwise distinct. *)
Theorem X16_suggestion_ids_distinct (dec : codepoint -> bool) (content : str) :
  NoDup (map Suggestion.id (_parse_suggestions dec content)).
Proof.
  unfold _parse_suggestions, suggestions_of_items.
  rewrite suggestion_loop. cbn [app].
  set (items := _extract_list_items dec content).
  assert (E : map Suggestion.id
                  (map (fun e => Suggestion.make
                                   (py "suggestion-"
                                    ++ of_int (Z.of_nat (fst e) + 1))
                                   (suggestion_title (snd e)) (snd e)
                                   (suggestion_priority (snd e)))
                       (enumerate items))
              = map (fun i => py "suggestion-" ++ of_int (Z.of_nat i + 1))
                    (map fst (enumerate items)))
    by (rewrite !map_map; reflexivity).
  rewrite E. unfold enumerate. rewrite enumerate_fst.
  apply NoDup_map_inj; [|apply seq_NoDup].
  intros x y H. apply app_inv_head in H. apply of_int_inj in H. lia.
Qed.

End SuggestionIdsMore.

Section HeadingsMore.

Import BaseAIProvider.

Lemma span_forall (p : codepoint -> bool) (s : str) :
  forallb p (fst (span p s)) = true.
Proof.
  induction s as [|c s IH]; simpl; [reflexivity|].
  destruct (p c) eqn:E; [|reflexivity].
  destruct (span p s) as [a b]. simpl in *. now rewrite E, IH.
Qed.

Lemma span_stops (p : codepoint -> bool) (s : str) :
  match snd (span p s) with
  | c :: _ => p c = false
  | [] => True
  end.
Proof.
  induction s as [|c s IH]; simpl; [exact I|].
  destruct (p c) eqn:E; [|exact E].
  destruct (span p s) as [a b]. exact IH.
Qed.

Lemma span_exact (p : codepoint -> bool) (a b : str) :
  forallb p a = true ->
  match b with c :: _ => p c = false | [] => True end ->
  span p (a ++ b) = (a, b).
Proof.
  intros Ha Hb. induction a as [|c a IH]; simpl in *.
  - destruct b as [|c b]; simpl in *; [reflexivity|]. now rewrite Hb.
  - apply andb_true_iff in Ha. destruct Ha as [Hc Ha].
    now rewrite Hc, (IH Ha).
Qed.

Lemma all_hashes (l : str) :
  forallb (N.eqb HASH) l = true -> l = repeat HASH (List.length l).
Proof.
  induction l as [|c l IH]; cbn [forallb List.length repeat]; [reflexivity|].
  intros H. apply andb_true_iff in H. destruct H as [Hc Hl].
  apply N.eqb_eq in Hc. now rewrite <- Hc, <- (IH Hl).
Qed.

Lemma hashes_forall (k : nat) : forallb (N.eqb HASH) (repeat HASH k) = true.
Proof. induction k; simpl; [reflexivity | exact IHk]. Qed.

Lemma lstrip_spaces (ws t : str) :
  forallb isspace ws = true -> no_lead t -> lstrip (ws ++ t) = t.
Proof.
  intros Hw Ht. induction ws as [|c ws IH]; simpl in *.
  - now apply lstrip_id.
  - apply andb_true_iff in Hw. destruct Hw as [Hc Hw]. now rewrite Hc, IH.
Qed.

Lemma existsb_LF (t : str) : existsb (N.eqb LF) t = false <-> ~ In LF t.
Proof.
  rewrite <- not_true_iff_false, existsb_exists. split.
  - intros H K. apply H. exists LF. split; [exact K | reflexivity].
  - intros H (x & Hx & E). apply N.eqb_eq in E. subst x. contradiction.
Qed.

(** X17: a line is a heading exactly when, stripped, it is one to three
    hash signs, then white space, then a title that is not empty; the title
    found is everything after that white space.  A stripped line of four
    hashes or more, or with no white space after the hashes, is an ordinary
    line. *)
Theorem X17_heading_lines (line title : str) :
  header_match line = Some title
  <-> exists k ws,
      (1 <= k <= 3)%nat
      /\ ws <> [] /\ forallb isspace ws = true
      /\ title <> [] /\ no_lead title /\ ~ In LF title
      /\ strip line = repeat HASH k ++ ws ++ title.
Proof.
  unfold header_match. split.
  - generalize (span_app (N.eqb HASH) (strip line))
               (span_forall (N.eqb HASH) (strip line)).
    destruct (span (N.eqb HASH) (strip line)) as [hashes rest]. cbn [fst snd].
    intros Hs Hh.
    destruct ((1 <=? List.length hashes)%nat
              && (List.length hashes <=? 3)%nat) eqn:K; [|discriminate].
    apply andb_true_iff in K. destruct K as [K1 K2].
    apply Nat.leb_le in K1, K2.
    destruct rest as [|c rest]; [discriminate|].
    destruct (isspace c) eqn:Ec; [|discriminate].
    generalize (lstrip_split (c :: rest)) (lstrip_no_lead (c :: rest)).
    destruct (lstrip (c :: rest)) as [|t0 ts] eqn:Ht; [discriminate|].
    cbn [truthy andb].
    destruct (existsb (N.eqb LF) (t0 :: ts)) eqn:T2; [discriminate|].
    intros (ws & Hw & Fw) Tl [= <-].
    apply existsb_LF in T2.
    exists (List.length hashes), ws.
    split; [lia|]. split.
    { intros ->. cbn [app] in Hw. injection Hw as -> _.
      cbn [no_lead] in Tl. congruence. }
    split; [exact Fw|]. split; [discriminate|].
    split; [exact Tl|]. split; [exact T2|].
    now rewrite Hs, (all_hashes hashes Hh), repeat_length, <- Hw.
  - intros (k & ws & Hk & Hne & Fw & Tne & Tl & Tlf & ->).
    destruct ws as [|w ws]; [congruence|].
    simpl in Fw. apply andb_true_iff in Fw. destruct Fw as [Ew Fw].
    rewrite (span_exact (N.eqb HASH) (repeat HASH k) ((w :: ws) ++ title)
               (hashes_forall k)).
    + rewrite repeat_length.
      assert (K : ((1 <=? k)%nat && (k <=? 3)%nat) = true).
      { apply andb_true_iff. split; apply Nat.leb_le; lia. }
      rewrite K. cbn [app]. rewrite Ew.
      change (w :: ws ++ title) with ((w :: ws) ++ title).
      rewrite (lstrip_spaces (w :: ws) title); [|simpl; now rewrite Ew|exact Tl].
      destruct title as [|c title]; [congruence|]. cbn [truthy andb].
      apply existsb_LF in Tlf. now rewrite Tlf.
    + cbn [app]. apply N.eqb_neq. intros <-. discriminate Ew.
Qed.

Example heading_examples :
  header_match (py "  ### Issues found  ") = Some (py "Issues found")
  /\ header_match (py "#### Too deep") = None
  /\ header_match (py "#NoSpace") = None
  /\ header_match (py "##") = None.
Proof. repeat split. Qed.

End HeadingsMore.

Section ProviderFactoryMore.

Import Providers.

Variables world client : Type.
Variable AsyncAnthropic : str -> world -> outcome client * world.
Variable AsyncOpenAI : str -> world -> outcome client * world.
Variable genai_configure : str -> world -> outcome unit * world.

Lemma Provider_of_value_spec (value : str) :
  match Provider_of_value value with
  | Some p => value = Provider_value p
  | None => forall p, value <> Provider_value p
  end.
Proof.
  unfold Provider_of_value.
  destruct (eqb value (py "claude")) eqn:E1;
    [now apply eqb_eq in E1|].
  destruct (eqb value (py "chatgpt")) eqn:E2;
    [now apply eqb_eq in E2|].
  destruct (eqb value (py "gemini")) eqn:E3;
    [now apply eqb_eq in E3|].
  apply eqb_neq in E1, E2, E3.
  intros []; assumption.
Qed.

Lemma Provider_of_value_value (p : Provider) :
  Provider_of_value (Provider_value p) = Some p.
Proof. now destruct p. Qed.

(** X18: [create_provider] looks the class up by the lower-cased name.  A
    name whose lower case is none of [claude], [chatgpt], [gemini] raises
    [Unknown provider: <name>], quoting the name as given, and no client
    library is called.  For a known name exactly the library call of that
    class is made, with the key of the config: what it raises is passed on
    unchanged, and when it returns the object holds the config as given
    and that client.  Whenever an object is returned, its [name] is the
    lower-cased name asked for and its default model is the entry of
    [DEFAULT_MODELS] for that name. *)
Theorem X18_create_provider
        (provider_name : str) (config_ : ProviderConfig.t) (w : world) :
  let create :=
    create_provider AsyncAnthropic AsyncOpenAI genai_configure
                    provider_name config_ w in
  let key := ProviderConfig.api_key config_ in
  ((forall p, lower provider_name <> Provider_value p) ->
   create = (Raise (py "Unknown provider: " ++ provider_name), w))
  /\ (lower provider_name = py "claude" ->
      forall w',
        (forall e, AsyncAnthropic key w = (Raise e, w') ->
                   create = (Raise e, w'))
        /\ (forall c, AsyncAnthropic key w = (Ok c, w') ->
                      create
                      = (Ok (ClaudeProvider
                               config_ c (py "claude-3-sonnet-20240229")),
                         w')))
  /\ (lower provider_name = py "chatgpt" ->
      forall w',
        (forall e, AsyncOpenAI key w = (Raise e, w') ->
                   create = (Raise e, w'))
        /\ (forall c, AsyncOpenAI key w = (Ok c, w') ->
                      create = (Ok (OpenAIProvider config_ c (py "gpt-4")),
                                w')))
  /\ (lower provider_name = py "gemini" ->
      forall w',
        (forall e, genai_configure key w = (Raise e, w') ->
                   create = (Raise e, w'))
        /\ (genai_configure key w = (Ok tt, w') ->
            create = (Ok (GeminiProvider config_ (py "gemini-pro")), w')))
  /\ (forall made w',
         create = (Ok made, w') ->
         name made = lower provider_name
         /\ config made = config_
         /\ exists p, lower provider_name = Provider_value p
                      /\ default_model made = DEFAULT_MODELS p).
Proof.
  intros create key. unfold create, create_provider.
  pose proof (Provider_of_value_spec (lower provider_name)) as L.
  split; [|split; [|split; [|split]]].
  - intros H. destruct (Provider_of_value (lower provider_name)) as [p|];
      [destruct (H p L) | reflexivity].
  - intros E. rewrite E. cbn [Provider_of_value eqb]. clear L.
    change (Provider_of_value (py "claude")) with (Some CLAUDE).
    cbn [providers]. unfold ClaudeProvider__init__. fold key.
    intros w'. split; [intros e H | intros c H]; now rewrite H.
  - intros E. rewrite E. clear L.
    change (Provider_of_value (py "chatgpt")) with (Some CHATGPT).
    cbn [providers]. unfold OpenAIProvider__init__. fold key.
    intros w'. split; [intros e H | intros c H]; now rewrite H.
  - intros E. rewrite E. clear L.
    change (Provider_of_value (py "gemini")) with (Some GEMINI).
    cbn [providers]. unfold GeminiProvider__init__. fold key.
    intros w'. split; [intros e H | intros H]; now rewrite H.
  - intros made w'.
    destruct (Provider_of_value (lower provider_name)) as [p|];
      [|discriminate].
    rewrite L. destruct p; cbn [providers];
      [unfold ClaudeProvider__init__; fold key;
       destruct (AsyncAnthropic key w) as [[c|e] w1]
      |unfold OpenAIProvider__init__; fold key;
       destruct (AsyncOpenAI key w) as [[c|e] w1]
      |unfold GeminiProvider__init__; fold key;
       destruct (genai_configure key w) as [[[]|e] w1]];
      intros H; try discriminate H;
      injection H as <- _;
      (split; [reflexivity|]); (split; [reflexivity|]).
    + now exists CLAUDE.
    + now exists CHATGPT.
    + now exists GEMINI.
Qed.

End ProviderFactoryMore.

Section ProviderFactoryExamples.

Import Providers.

Lemma X18_create_provider_witness :
  sample_create (py "GPT-4") (py "sk-1")
  = (Raise (py "Unknown provider: GPT-4"), [])
  /\ sample_create (py "ChatGPT") []
     = (Raise (py "The api_key client option must be set"),
        [py "AsyncOpenAI"])
  /\ sample_create (py "Claude") (py "sk-1")
     = (Ok (ClaudeProvider (keyed (py "sk-1")) (py "sk-1")
                           (py "claude-3-sonnet-20240229")),
        [py "AsyncAnthropic"]).
Proof.
  pose proof (X18_create_provider
                _ _ sample_anthropic sample_openai sample_genai
                (py "GPT-4") (keyed (py "sk-1")) []) as Unknown.
  pose proof (X18_create_provider
                _ _ sample_anthropic sample_openai sample_genai
                (py "ChatGPT") (keyed []) []) as Refused.
  pose proof (X18_create_provider
                _ _ sample_anthropic sample_openai sample_genai
                (py "Claude") (keyed (py "sk-1")) []) as Made.
  cbv zeta in Unknown, Refused, Made.
  destruct Unknown as (Unknown & _).
  destruct Refused as (_ & _ & Refused & _).
  destruct Made as (_ & Made & _).
  split; [|split].
  - apply Unknown. intros []; discriminate.
  - exact (proj1 (Refused eq_refl [py "AsyncOpenAI"]) _ eq_refl).
  - exact (proj2 (Made eq_refl [py "AsyncAnthropic"]) _ eq_refl).
Defined.

End ProviderFactoryExamples.

Section CountingMore.

Import GitManager.

Lemma split_app_sep (sep : codepoint) (a b : str) :
  split sep (a ++ sep :: b) = split sep a ++ split sep b.
Proof.
  induction a as [|c a IH]; cbn [app split].
  - now rewrite N.eqb_refl.
  - destruct (N.eqb c sep); [now rewrite IH|].
    rewrite IH.
    destruct (split sep a) as [|w ws] eqn:E; [now apply split_nonempty in E|].
    reflexivity.
Qed.

Lemma count_loop_shift (lines : list str) :
  forall a d,
    fold_left count_line lines (a, d)
    = ((a + fst (fold_left count_line lines (0, 0)))%Z,
       (d + snd (fold_left count_line lines (0, 0)))%Z).
Proof.
  induction lines as [|l lines IH]; intros a d.
  - simpl. f_equal; lia.
  - cbn [fold_left]. unfold count_line at 2 4 6.
    destruct (startswith (py "+") l && negb (startswith (py "+++") l)).
    + rewrite (IH (a + 1)%Z d), (IH (0 + 1)%Z 0%Z). cbn [fst snd]. f_equal; lia.
    + destruct (startswith (py "-") l && negb (startswith (py "---") l)).
      * rewrite (IH a (d + 1)%Z), (IH 0%Z (0 + 1)%Z). cbn [fst snd]. f_equal; lia.
      * apply IH.
Qed.

Lemma count_changes_fold (p : str) :
  count_changes (Some p) = fold_left count_line (split LF p) (0%Z, 0%Z).
Proof.
  unfold count_changes. destruct p; reflexivity.
Qed.

(** X19: counting is additive over lines: the counts of two patch texts
    joined by a line feed are the sums of the counts of the two. *)
Theorem X19_counts_add_over_lines (p1 p2 : str) :
  count_changes (Some (p1 ++ LF :: p2))
  = ((fst (count_changes (Some p1)) + fst (count_changes (Some p2)))%Z,
     (snd (count_changes (Some p1)) + snd (count_changes (Some p2)))%Z).
Proof.
  rewrite !count_changes_fold, split_app_sep, fold_left_app.
  destruct (fold_left count_line (split LF p1) (0%Z, 0%Z)) as [a d].
  now rewrite count_loop_shift.
Qed.

Example header_lines_not_counted :
  count_changes (Some (py "--- a/x" ++ [LF] ++ py "+++ b/x" ++ [LF]
                       ++ py "@@ -1 +1 @@" ++ [LF] ++ py "-old" ++ [LF]
                       ++ py "+new" ++ [LF] ++ py " same"))
  = (1%Z, 1%Z).
Proof. reflexivity. Qed.

End CountingMore.
